(** * chochocranci.py: a small personal finance ledger

    The script keeps a list of income and expense records in [data.json]
    and prints monthly totals.  This development embeds the store
    ([load_data], [save_data], [add_transaction], the clear branch of
    [interactive_menu]) and the aggregator ([get_month_transactions],
    [summarize_month]) as functions over an explicit world holding the
    file, the clock and the console, and proves properties of them.
    The console operations ([print_summary], [list_transactions],
    [demo_run]) and the loop of [interactive_menu], over the lines of
    its input, follow.

    Python values are the JSON-representable ones; exceptions are values
    of a result type; a dictionary is a finite map from strings.

    Line 60 of the file reads [except Exception:6], with a stray [6]
    after the colon.  The functions are embedded as their text reads
    with that line taken as [except Exception:]; the last part treats
    the text of the file as it stands. *)

From Stdlib Require Import ZArith Floats Ascii String List Bool Lia.
From Stdlib Require Import DecimalString.
From stdpp Require Import gmap strings list.

Set Warnings "-register-all".
Local Open Scope Z_scope.

(** ** Python values and exceptions *)

Inductive value :=
| VNone
| VBool (b : bool)
| VInt (n : Z)
| VFloat (x : float)
| VStr (s : string)
| VList (items : list value)
| VDict (entries : gmap string value).

(** The exceptions the script can meet; all of them derive from
    [Exception], so [except Exception] catches every one. *)
Inductive exn :=
| KeyError | TypeError | AttributeError | ValueError | OverflowError | OSError.

Inductive result (A : Type) :=
| Ok (a : A)
| Raise (e : exn).
Arguments Ok {A} a.
Arguments Raise {A} e.

Definition result_bind {A B} (r : result A) (k : A → result B) : result B :=
  match r with
  | Ok a => k a
  | Raise e => Raise e
  end.

Notation "'let?' x ':=' r 'in' k" := (result_bind r (fun x => k))
  (at level 10, x name, r at level 100, k at level 200).

(** [obj[key]] for a string key. *)
Definition getitem (obj : value) (key : string) : result value :=
  match obj with
  | VDict d => match d !! key with
               | Some v => Ok v
               | None => Raise KeyError
               end
  | _ => Raise TypeError
  end.

(** [obj.get(key)]: only a dict has the method. *)
Definition dict_get (obj : value) (key : string) : result value :=
  match obj with
  | VDict d => Ok (default VNone (d !! key))
  | _ => Raise AttributeError
  end.

(** [for t in obj]: a list yields its items, a string its characters, a
    dict its keys (their order plays no role below). *)
Definition iterate (obj : value) : result (list value) :=
  match obj with
  | VList l => Ok l
  | VStr s => Ok (map (fun c => VStr (String c EmptyString)) (list_ascii_of_string s))
  | VDict d => Ok (map (fun kv => VStr kv.1) (map_to_list d))
  | _ => Raise TypeError
  end.

(** [obj.append(x)]: only a list has the method. *)
Definition list_append (obj x : value) : result value :=
  match obj with
  | VList l => Ok (VList (l ++ [x]))
  | _ => Raise AttributeError
  end.

(** [v == s] for a string literal [s]. *)
Definition eq_str (v : value) (s : string) : bool :=
  match v with
  | VStr t => String.eqb t s
  | _ => false
  end.

(** ** Numbers

    A Python float is a binary64 value; an int is unbounded.  Converting
    an int rounds to nearest-even and raises [OverflowError] when the
    result would be infinite. *)

Definition int_to_float (n : Z) : result float :=
  match binary_normalize prec emax n 0 false with
  | S754_infinity _ => Raise OverflowError
  | x => Ok (SF2Prim x)
  end.

(** Reading a float from a string is Python's own parser, a library
    function the script takes as given. *)
Class FloatParser := float_of_str : string → option float.

(** [float(v)]. *)
Definition py_float `{FloatParser} (v : value) : result float :=
  match v with
  | VFloat x => Ok x
  | VInt n => int_to_float n
  | VBool b => Ok (if b then 1%float else 0%float)
  | VStr s => match float_of_str s with
              | Some x => Ok x
              | None => Raise ValueError
              end
  | _ => Raise TypeError
  end.

Inductive number :=
| NInt (n : Z)
| NFloat (x : float).

(** bool is a subclass of int. *)
Definition as_number (v : value) : option number :=
  match v with
  | VBool b => Some (NInt (if b then 1 else 0))
  | VInt n => Some (NInt n)
  | VFloat x => Some (NFloat x)
  | _ => None
  end.

Definition arith (fz : Z → Z → Z) (ff : float → float → float)
    (a b : number) : result value :=
  match a, b with
  | NInt m, NInt n => Ok (VInt (fz m n))
  | NInt m, NFloat y => let? x := int_to_float m in Ok (VFloat (ff x y))
  | NFloat x, NInt n => let? y := int_to_float n in Ok (VFloat (ff x y))
  | NFloat x, NFloat y => Ok (VFloat (ff x y))
  end.

(** [a + b]. *)
Definition py_add (a b : value) : result value :=
  match as_number a, as_number b with
  | Some x, Some y => arith Z.add PrimFloat.add x y
  | _, _ =>
      match a, b with
      | VStr s, VStr t => Ok (VStr (s +:+ t))
      | VList l, VList k => Ok (VList (l ++ k))
      | _, _ => Raise TypeError
      end
  end.

(** [a - b]. *)
Definition py_sub (a b : value) : result value :=
  match as_number a, as_number b with
  | Some x, Some y => arith Z.sub PrimFloat.sub x y
  | _, _ => Raise TypeError
  end.

(** ** Dates

    [datetime.fromisoformat(s).date()], for the format the library
    documents since Python 3.7:
    [YYYY-MM-DD[*HH[:MM[:SS[.fff[fff]]]][+HH:MM[:SS[.ffffff]]]]], the
    separator [*] being any one character, of one to four bytes in
    UTF-8.  Python 3.11 and later read further forms (a date without
    dashes, a week date, [Z], an offset of hours alone), which are
    refused here; every string read here is read by them too, to the
    same date. *)

Record date := { year : Z; month : Z; day : Z }.

Definition digit (c : ascii) : option Z :=
  let n := Z.of_N (N_of_ascii c) in
  if (48 <=? n) && (n <=? 57) then Some (n - 48) else None.

Fixpoint digits_from (acc : Z) (s : string) : option Z :=
  match s with
  | EmptyString => Some acc
  | String c rest =>
      match digit c with
      | Some d => digits_from (10 * acc + d) rest
      | None => None
      end
  end.

(** A field of exactly [len] decimal digits starting at [pos]. *)
Definition field (pos len : nat) (s : string) : option Z :=
  let part := substring pos len s in
  if (String.length part =? len)%nat && negb (len =? 0)%nat
  then digits_from 0 part else None.

Definition char_at (pos : nat) (c : ascii) (s : string) : bool :=
  match String.get pos s with
  | Some c' => Ascii.eqb c c'
  | None => false
  end.

Definition is_leap (y : Z) : bool :=
  ((y mod 4 =? 0) && negb (y mod 100 =? 0)) || (y mod 400 =? 0).

Definition days_in_month (y m : Z) : Z :=
  if m =? 2 then (if is_leap y then 29 else 28)
  else if (m =? 4) || (m =? 6) || (m =? 9) || (m =? 11) then 30
  else 31.

Definition valid_date (d : date) : bool :=
  (1 <=? year d) && (year d <=? 9999) &&
  (1 <=? month d) && (month d <=? 12) &&
  (1 <=? day d) && (day d <=? days_in_month (year d) (month d)).

(** The ten characters [YYYY-MM-DD]. *)
Definition parse_isoformat_date (s : string) : option date :=
  match field 0 4 s, field 5 2 s, field 8 2 s with
  | Some y, Some m, Some d =>
      if char_at 4 "-" s && char_at 7 "-" s
      then Some {| year := y; month := m; day := d |} else None
  | _, _, _ => None
  end.

(** [HH[:MM[:SS[.fff[fff]]]]] as (hour, minute, second, microsecond). *)
Definition parse_hh_mm_ss_ff (s : string) : option (Z * Z * Z * Z) :=
  match String.length s with
  | 2%nat =>
      match field 0 2 s with
      | Some h => Some (h, 0, 0, 0)
      | None => None
      end
  | 5%nat =>
      match field 0 2 s, field 3 2 s with
      | Some h, Some m => if char_at 2 ":" s then Some (h, m, 0, 0) else None
      | _, _ => None
      end
  | 8%nat =>
      match field 0 2 s, field 3 2 s, field 6 2 s with
      | Some h, Some m, Some sec =>
          if char_at 2 ":" s && char_at 5 ":" s then Some (h, m, sec, 0) else None
      | _, _, _ => None
      end
  | 12%nat =>
      match field 0 2 s, field 3 2 s, field 6 2 s, field 9 3 s with
      | Some h, Some m, Some sec, Some f =>
          if char_at 2 ":" s && char_at 5 ":" s && char_at 8 "." s
          then Some (h, m, sec, 1000 * f) else None
      | _, _, _, _ => None
      end
  | 15%nat =>
      match field 0 2 s, field 3 2 s, field 6 2 s, field 9 6 s with
      | Some h, Some m, Some sec, Some f =>
          if char_at 2 ":" s && char_at 5 ":" s && char_at 8 "." s
          then Some (h, m, sec, f) else None
      | _, _, _, _ => None
      end
  | _ => None
  end.

(** Position of the first [+] or [-], where a UTC offset starts. *)
Fixpoint offset_pos (s : string) : option nat :=
  match s with
  | EmptyString => None
  | String c rest =>
      if Ascii.eqb c "+" || Ascii.eqb c "-" then Some O
      else match offset_pos rest with
           | Some n => Some (S n)
           | None => None
           end
  end.

Definition valid_time (t : Z * Z * Z * Z) : bool :=
  let '(h, m, sec, _) := t in (h <? 24) && (m <? 60) && (sec <? 60).

(** An offset must stay strictly inside one day. *)
Definition valid_offset (t : Z * Z * Z * Z) : bool :=
  let '(h, m, sec, _) := t in 3600 * h + 60 * m + sec <? 86400.

(** A UTC offset, after its sign: [HH:MM], [HH:MM:SS] or
    [HH:MM:SS.ffffff], and no shorter form. *)
Definition parse_offset (s : string) : option (Z * Z * Z * Z) :=
  match String.length s with
  | 5%nat | 8%nat | 15%nat => parse_hh_mm_ss_ff s
  | _ => None
  end.

(** The part after the separator: a time, then possibly an offset. *)
Definition parse_isoformat_time (s : string) : bool :=
  match offset_pos s with
  | None =>
      match parse_hh_mm_ss_ff s with
      | Some t => valid_time t
      | None => false
      end
  | Some p =>
      match parse_hh_mm_ss_ff (substring 0 p s),
            parse_offset (substring (S p) (String.length s - S p) s) with
      | Some t, Some off => valid_time t && valid_offset off
      | _, _ => false
      end
  end.

(** The separator is any one character: in UTF-8 its first byte tells
    how many bytes it takes. *)
Definition separator_width (s : string) : nat :=
  match String.get 10 s with
  | Some c =>
      let n := N_of_ascii c in
      if (n <? 128)%N then 1
      else if (n <? 224)%N then 2
      else if (n <? 240)%N then 3
      else 4
  | None => 0
  end.

Definition fromisoformat_str (s : string) : option date :=
  match parse_isoformat_date (substring 0 10 s) with
  | Some d =>
      let start := (10 + separator_width s)%nat in
      if valid_date d &&
         ((String.length s =? 10)%nat ||
          parse_isoformat_time (substring start (String.length s - start) s))
      then Some d else None
  | None => None
  end.

(** [datetime.fromisoformat(v).date()]: the argument must be a str. *)
Definition fromisoformat (v : value) : result date :=
  match v with
  | VStr s => match fromisoformat_str s with
              | Some d => Ok d
              | None => Raise ValueError
              end
  | _ => Raise TypeError
  end.

(** Writing dates: [isoformat()] pads every field with zeros. *)
Definition digit_char (n : Z) : ascii := ascii_of_N (Z.to_N (48 + n mod 10)).

Fixpoint padded (width : nat) (n : Z) (tail : string) : string :=
  match width with
  | O => tail
  | S w => padded w (n / 10) (String (digit_char n) tail)
  end.

Record instant := {
  on : date;
  hour : Z;
  minute : Z;
  second : Z;
  microsecond : Z
}.

(** [d.isoformat()] for a date. *)
Definition date_isoformat (d : date) : string :=
  padded 4 (year d) (String "-" (padded 2 (month d) (String "-" (padded 2 (day d) EmptyString)))).

(** [t.isoformat()] for a datetime: the fraction is left out when zero. *)
Definition datetime_isoformat (t : instant) : string :=
  date_isoformat (on t) +:+ "T" +:+
  padded 2 (hour t) (String ":" (padded 2 (minute t) (String ":" (padded 2 (second t)
    (if microsecond t =? 0 then EmptyString
     else String "." (padded 6 (microsecond t) EmptyString)))))).

(** ** The world

    What the script touches outside itself: the file [data.json], the
    device it lives on, the clock and the console.  The file, when it
    exists, can be opened for reading. *)

Inductive content :=
| Text (doc : value)               (* text that [json.load] reads as [doc] *)
| Partial (doc : gmap string value) (* a proper prefix of the text of the dict [doc] *)
| Junk (raw : string).             (* any other text; [json.load] refuses it *)

Inductive medium :=
| Writable     (* writes go through *)
| OpenFails    (* the file cannot be opened for writing *)
| WriteFails.  (* the file opens, the write stops part-way *)

Record world := {
  data_json : option content;
  disk : medium;
  clock : nat → instant;   (* what the clock shows at each reading *)
  ticks : nat;             (* readings made so far *)
  stdout : list string
}.

Definition with_file (c : option content) (w : world) : world :=
  {| data_json := c; disk := disk w; clock := clock w;
     ticks := ticks w; stdout := stdout w |}.

Definition with_tick (w : world) : world :=
  {| data_json := data_json w; disk := disk w; clock := clock w;
     ticks := S (ticks w); stdout := stdout w |}.

Definition with_line (s : string) (w : world) : world :=
  {| data_json := data_json w; disk := disk w; clock := clock w;
     ticks := ticks w; stdout := stdout w ++ [s] |}.

(** A computation changes the world and returns or raises. *)
Definition M (A : Type) : Type := world → result A * world.

Definition ret {A} (a : A) : M A := fun w => (Ok a, w).

Definition bind {A B} (m : M A) (k : A → M B) : M B := fun w =>
  match m w with
  | (Ok a, w') => k a w'
  | (Raise e, w') => (Raise e, w')
  end.

Definition lift {A} (r : result A) : M A := fun w => (r, w).

(** [try: body / except Exception: handler]. *)
Definition try_except {A} (body handler : M A) : M A := fun w =>
  match body w with
  | (Ok a, w') => (Ok a, w')
  | (Raise _, w') => handler w'
  end.

Notation "'let*' x ':=' m 'in' k" := (bind m (fun x => k))
  (at level 10, x name, m at level 100, k at level 200).
Notation "m1 '>>' m2" := (bind m1 (fun _ => m2))
  (at level 60, right associativity).

(** [os.path.exists(DATA_FILE)]. *)
Definition path_exists : M bool := fun w =>
  (Ok (match data_json w with Some _ => true | None => false end), w).

(** [json.load(f)] on the open file; a decoding error is a [ValueError]. *)
Definition json_load : M value := fun w =>
  match data_json w with
  | Some (Text doc) => (Ok doc, w)
  | _ => (Raise ValueError, w)
  end.

(** [open(DATA_FILE, 'w')]: the file is emptied as soon as it opens. *)
Definition open_w : M unit := fun w =>
  match disk w with
  | OpenFails => (Raise OSError, w)
  | _ => (Ok tt, with_file (Some (Junk EmptyString)) w)
  end.

(** [json.dump(data, f, ...)] up to the closing of the file.  What it
    writes, [json.load] reads back as [data]: a float is written by
    [repr] and read by [float], a string as it is. *)
Definition json_dump (data : gmap string value) : M unit := fun w =>
  match disk w with
  | Writable => (Ok tt, with_file (Some (Text (VDict data))) w)
  | _ => (Raise OSError, with_file (Some (Partial data)) w)
  end.

Definition print (s : string) : M unit := fun w => (Ok tt, with_line s w).

(** [date.today()] and [datetime.now()]: one reading of the clock each. *)
Definition today : M date := fun w => (Ok (on (clock w (ticks w))), with_tick w).
Definition now : M instant := fun w => (Ok (clock w (ticks w)), with_tick w).

(** ** The store *)

Definition empty_ledger : gmap string value := {[ "transactions" := VList [] ]}.

Definition load_data : M value :=
  let* present := path_exists in
  if negb present then ret (VDict empty_ledger)
  else
    try_except json_load
      (print "Peringatan: gagal membaca data.json; membuat data baru." >>
       ret (VDict empty_ledger)).

(** Every caller passes a dict. *)
Definition save_data (data : gmap string value) : M unit :=
  open_w >> json_dump data.

(** The dict behind a value that has just been subscripted by a string. *)
Definition mapping (obj : value) : result (gmap string value) :=
  match obj with
  | VDict d => Ok d
  | _ => Raise TypeError
  end.

(** The record [add_transaction] builds. *)
Definition txn_record (tx_type : value) (amount : float)
    (category note tx_date : value) (created_at : string) : value :=
  VDict {[ "type" := tx_type;
           "amount" := VFloat amount;
           "category" := category;
           "note" := note;
           "date" := tx_date;
           "created_at" := VStr created_at ]}.

(** [tx_date = VNone] is the default argument.  The list under
    ["transactions"] is appended to in place, so [data] holds the longer
    list when it is saved. *)
Definition add_transaction `{FloatParser}
    (tx_type amount category note tx_date : value) : M unit :=
  let* data := load_data in
  let* tx_date :=
    match tx_date with
    | VNone => let* d := today in ret (VStr (date_isoformat d))
    | _ => ret tx_date
    end in
  let* amt := lift (py_float amount) in
  let* created := now in
  let txn := txn_record tx_type amt category note tx_date (datetime_isoformat created) in
  let* rows := lift (getitem data "transactions") in
  let* rows := lift (list_append rows txn) in
  let* d := lift (mapping data) in
  save_data (<["transactions" := rows]> d).

(** ASCII upper-casing, [str.upper] on the console's answers. *)
Definition upper_char (c : ascii) : ascii :=
  let n := N_of_ascii c in
  if ((97 <=? n) && (n <=? 122))%N then ascii_of_N (n - 32) else c.

Fixpoint upper (s : string) : string :=
  match s with
  | EmptyString => EmptyString
  | String c rest => String (upper_char c) (upper rest)
  end.

(** Choice 5 of [interactive_menu], [confirm] being the stripped answer. *)
Definition interactive_menu_clear (confirm : string) : M unit :=
  if String.eqb (upper confirm) "YA"
  then save_data {[ "transactions" := VList [] ]} >> print "Semua transaksi dihapus."
  else print "Dibatalkan.".

(** ** The aggregator *)

(** The date of one record: line 60 of the file is read as
    [except Exception:]. *)
Definition row_date (t : value) : result date :=
  match (let? s := getitem t "date" in fromisoformat s) with
  | Ok d => Ok d
  | Raise _ => let? s := dict_get t "created_at" in fromisoformat s
  end.

(** The [for] loop of [get_month_transactions], [results] growing. *)
Fixpoint month_loop (y m : Z) (rows results : list value) : list value :=
  match rows with
  | [] => results
  | t :: rest =>
      match row_date t with
      | Raise _ => month_loop y m rest results
      | Ok d =>
          if (year d =? y) && (month d =? m)
          then month_loop y m rest (results ++ [t])
          else month_loop y m rest results
      end
  end.

Definition get_month_transactions (y m : Z) : M (list value) :=
  let* data := load_data in
  let* rows := lift (getitem data "transactions") in
  let* rows := lift (iterate rows) in
  ret (month_loop y m rows []).

(** [sum(t['amount'] for t in txs if t['type'] == kind)], from [acc]:
    the amounts are added from left to right.  (Python 3.12 and later
    compensate the rounding of float sums; where every partial sum is
    exact, as in the scenario below, the result is the same.) *)
Fixpoint sum_amounts (kind : string) (txs : list value) (acc : value) : result value :=
  match txs with
  | [] => Ok acc
  | t :: rest =>
      let? ty := getitem t "type" in
      if eq_str ty kind
      then let? a := getitem t "amount" in
           let? acc := py_add acc a in
           sum_amounts kind rest acc
      else sum_amounts kind rest acc
  end.

Definition summarize_month (y m : Z) : M value :=
  let* txs := get_month_transactions y m in
  let* total_income := lift (sum_amounts "income" txs (VInt 0)) in
  let* total_expense := lift (sum_amounts "expense" txs (VInt 0)) in
  let* balance := lift (py_sub total_income total_expense) in
  ret (VDict {[ "income" := total_income;
                "expense" := total_expense;
                "balance" := balance;
                "count" := VInt (Z.of_nat (length txs)) ]}).

(** ** The text of the file

    Python compiles a whole file before it runs any of it.  The lines
    below are lines 54 to 67 of [chochocranci.py], the definition of
    [get_month_transactions], indented with tabs as in the file. *)

Definition tab : ascii := ascii_of_N 9.

Fixpoint indented (n : nat) (s : string) : string :=
  match n with
  | O => s
  | S k => String tab (indented k s)
  end.

Definition first_line : nat := 54.

Definition source_lines : list string := [
  indented 0 "def get_month_transactions(year, month):";
  indented 1 "data = load_data()";
  indented 1 "results = []";
  indented 1 "for t in data['transactions']:";
  indented 2 "try:";
  indented 3 "d = datetime.fromisoformat(t['date']).date()";
  indented 2 "except Exception:6";
  indented 3 "try:";
  indented 4 "d = datetime.fromisoformat(t.get('created_at')).date()";
  indented 3 "except Exception:";
  indented 4 "continue";
  indented 2 "if d.year == year and d.month == month:";
  indented 3 "results.append(t)";
  indented 1 "return results" ].

(** The same lines with the stray [6] of line 60 taken out. *)
Definition repaired_lines : list string :=
  <[6%nat := indented 2 "except Exception:"]> source_lines.

Fixpoint leading_tabs (s : string) : nat :=
  match s with
  | String c rest => if Ascii.eqb c tab then S (leading_tabs rest) else O
  | EmptyString => O
  end.

Fixpoint last_char (s : string) : option ascii :=
  match s with
  | EmptyString => None
  | String c EmptyString => Some c
  | String _ rest => last_char rest
  end.

(** A header whose suite follows on the next lines ends with a colon;
    [except Exception:6] carries its suite, the statement [6], on the
    same line. *)
Definition opens_block (s : string) : bool :=
  match last_char s with
  | Some c => Ascii.eqb c ":"
  | None => false
  end.

Inductive layout_error :=
| UnexpectedIndent (line : nat)
| ExpectedIndentedBlock (line : nat)
| UnindentMismatch (line : nat).

(** Leaving blocks: pop the indentation stack down to column [col]. *)
Fixpoint dedent (col : nat) (stack : list nat) : option (list nat) :=
  match stack with
  | [] => None
  | top :: below =>
      if (top =? col)%nat then Some stack
      else if (top <? col)%nat then None
      else dedent col below
  end.

(** Python's indentation rule, line by line: a deeper line is allowed
    exactly after a header that opens a block, and required there.  No
    line of the text above continues another (no open bracket, no
    backslash, no comment), so each is a logical line. *)
Fixpoint check_layout (lines : list string) (lineno : nat)
    (stack : list nat) (after_header : bool) : option layout_error :=
  match lines with
  | [] => if after_header then Some (ExpectedIndentedBlock lineno) else None
  | l :: rest =>
      let col := leading_tabs l in
      let top := hd O stack in
      if after_header then
        if (top <? col)%nat
        then check_layout rest (S lineno) (col :: stack) (opens_block l)
        else Some (ExpectedIndentedBlock lineno)
      else if (top <? col)%nat then Some (UnexpectedIndent lineno)
      else match dedent col stack with
           | Some stack' => check_layout rest (S lineno) stack' (opens_block l)
           | None => Some (UnindentMismatch lineno)
           end
  end.

Definition compile (lines : list string) : option layout_error :=
  check_layout lines first_line [O] false.

(** Running an operation of a file: nothing runs unless it compiles. *)
Inductive outcome (A : Type) :=
| Refused (e : layout_error)
| Ran (r : result A) (w : world).
Arguments Refused {A} e.
Arguments Ran {A} r w.

Definition run_in {A} (lines : list string) (op : M A) (w : world) : outcome A :=
  match compile lines with
  | Some e => Refused e
  | None => let (r, w') := op w in Ran r w'
  end.

(** ** Words of the specification

    The definitions of this part follow the specification's text; the
    theorems compare them with the functions above. *)

(** The date a field of a record holds, when present and well formed. *)
Definition field_date (t : value) (k : string) : option date :=
  match t with
  | VDict d => match d !! k with
               | Some (VStr s) => fromisoformat_str s
               | _ => None
               end
  | _ => None
  end.

(** "Prefer [date]; if that field is absent or fails to parse, fall back
    to parsing [created_at]". *)
Definition effective_date (t : value) : option date :=
  match field_date t "date" with
  | Some d => Some d
  | None => field_date t "created_at"
  end.

(** "Selects every transaction whose effective date falls in
    (year, month)"; with no effective date a record is in no bucket. *)
Definition in_bucket (y m : Z) (t : value) : bool :=
  match effective_date t with
  | Some d => (year d =? y) && (month d =? m)
  | None => false
  end.

(** A record of kind [kind]. *)
Definition has_kind (kind : string) (t : value) : bool :=
  match getitem t "type" with
  | Ok ty => eq_str ty kind
  | Raise _ => false
  end.

(** A transaction as the data model has it: a kind that is income or
    expense and a float amount. *)
Definition well_formed (t : value) : Prop :=
  ∃ d x, t = VDict d ∧ d !! "amount" = Some (VFloat x) ∧
         (d !! "type" = Some (VStr "income") ∨ d !! "type" = Some (VStr "expense")).

(** What a caller hands to [add_transaction]. *)
Record entry := {
  e_type : string;
  e_amount : float;
  e_category : string;
  e_note : string;
  e_date : string
}.

Definition append `{FloatParser} (e : entry) : M unit :=
  add_transaction (VStr (e_type e)) (VFloat (e_amount e))
    (VStr (e_category e)) (VStr (e_note e)) (VStr (e_date e)).

Fixpoint append_all `{FloatParser} (es : list entry) : M unit :=
  match es with
  | [] => ret tt
  | e :: rest => append e >> append_all rest
  end.

(** The three appends of [demo_run] (lines 156 to 158), dated in
    March 2024. *)
Definition march_appends `{FloatParser} : M unit :=
  add_transaction (VStr "income") (VInt 5000000) (VStr "Gaji")
    (VStr "Gaji bulan ini") (VStr "2024-03-01") >>
  add_transaction (VStr "expense") (VInt 1500000) (VStr "Sewa")
    (VStr "Sewa rumah") (VStr "2024-03-02") >>
  add_transaction (VStr "expense") (VInt 300000) (VStr "Makan")
    (VStr "Makan dan belanja") (VStr "2024-03-05").

(** What a running total of float amounts can be: the int 0 that [sum]
    starts from, or a float. *)
Definition running_total (v : value) : Prop := v = VInt 0 ∨ ∃ x, v = VFloat x.

(** The stored record carries the entry's five fields unchanged: each
    is found under its key, the amount as a float and the others as
    strings, next to a creation stamp and no other key. *)
Definition stored (e : entry) (row : value) : Prop :=
  ∃ r : gmap string value,
    row = VDict r ∧
    r !! "type" = Some (VStr (e_type e)) ∧
    r !! "amount" = Some (VFloat (e_amount e)) ∧
    r !! "category" = Some (VStr (e_category e)) ∧
    r !! "note" = Some (VStr (e_note e)) ∧
    r !! "date" = Some (VStr (e_date e)) ∧
    (∃ stamp, r !! "created_at" = Some (VStr stamp)) ∧
    dom r = {[ "type"; "amount"; "category"; "note"; "date"; "created_at" ]}.

(** A parser for strings of decimal digits, enough to run examples. *)
Definition digits_parser : FloatParser := fun s =>
  match s with
  | EmptyString => None
  | _ => match digits_from 0 s with
         | Some n => Some (SF2Prim (binary_normalize prec emax n 0 false))
         | None => None
         end
  end.

(** The ledger a world holds: a missing file stands for the empty one. *)
Definition ledger_on_disk (w : world) (d : gmap string value) : Prop :=
  (data_json w = None ∧ d = empty_ledger) ∨ data_json w = Some (Text (VDict d)).

(** ** Sample worlds *)

Definition noon : instant :=
  {| on := {| year := 2024; month := 3; day := 7 |};
     hour := 12; minute := 0; second := 0; microsecond := 0 |}.

(** No file yet, a device that takes writes. *)
Definition fresh : world :=
  {| data_json := None; disk := Writable; clock := fun _ => noon;
     ticks := O; stdout := [] |}.

Definition salary : value :=
  txn_record (VStr "income") 5000000 (VStr "Gaji") (VStr "Gaji bulan ini")
    (VStr "2024-03-01") "2024-03-01T09:00:00".

(** A ledger of one record on a device with the given behaviour. *)
Definition one_record (dk : medium) : world :=
  {| data_json := Some (Text (VDict {[ "transactions" := VList [salary] ]}));
     disk := dk; clock := fun _ => noon; ticks := O; stdout := [] |}.

(** A file holding the JSON document [doc]. *)
Definition holding (doc : value) : world :=
  {| data_json := Some (Text doc); disk := Writable; clock := fun _ => noon;
     ticks := O; stdout := [] |}.

Definition rent : value :=
  txn_record (VStr "expense") 1500000 (VStr "Sewa") (VStr "Sewa rumah")
    (VStr "2024-03-02") "2024-03-02T09:00:00".

(** A record that has no [date] field. *)
Definition undated : gmap string value :=
  {[ "type" := VStr "expense";
     "amount" := VFloat 50000;
     "created_at" := VStr "2024-05-10T10:00:00" ]}.

Definition mixed_rows : list value := [salary; VDict undated; rent].

(** ** The console

    What [print] and [format] write.  The digits of a float and the
    text [str] gives for a list or a dict are Python's own; the script
    takes them as given. *)

Class Formatter := {
  money : float → string;   (* ['{:,.2f}'.format(x)] for a float [x] *)
  text : value → string     (* [str(v)] *)
}.

(** [str(n)] for an int. *)
Definition decimal (n : Z) : string := NilZero.string_of_int (Z.to_int n).

Fixpoint copies (n : nat) (c : ascii) : string :=
  match n with
  | O => EmptyString
  | S k => String c (copies k c)
  end.

Definition zfill (width : nat) (s : string) : string :=
  copies (width - String.length s) "0" +:+ s.

(** ['{:0Wd}'.format(n)]: the sign counts in the width. *)
Definition format_0d (width : nat) (n : Z) : string :=
  if n <? 0 then String "-" (zfill (width - 1) (decimal (- n)))
  else zfill width (decimal n).

(** ['{:W}'.format(s)] for a string: padded with spaces on the right. *)
Definition ljust (width : nat) (s : string) : string :=
  s +:+ copies (width - String.length s) " ".

(** ['{}'.format(v)]. *)
Definition show `{Formatter} (v : value) : string :=
  match v with
  | VStr s => s
  | VInt n => decimal n
  | VBool true => "True"
  | VBool false => "False"
  | VNone => "None"
  | _ => text v
  end.

(** ['{:,.2f}'.format(v)]: an int is converted first; a string has no
    such format, nor have the other values. *)
Definition format_money `{Formatter} (v : value) : result string :=
  match as_number v with
  | Some (NFloat x) => Ok (money x)
  | Some (NInt n) => let? x := int_to_float n in Ok (money x)
  | None => match v with
            | VStr _ => Raise ValueError
            | _ => Raise TypeError
            end
  end.

(** [v.upper()]: a method of strings. *)
Definition str_upper (v : value) : result string :=
  match v with
  | VStr s => Ok (upper s)
  | _ => Raise AttributeError
  end.

(** [obj.get(key, default)]. *)
Definition dict_get_or (obj : value) (key : string) (default : value) : result value :=
  match obj with
  | VDict d => Ok (match d !! key with Some v => v | None => default end)
  | _ => Raise AttributeError
  end.

(** [bool(v)], as [if not txs] takes it. *)
Definition truthy (v : value) : bool :=
  match v with
  | VNone => false
  | VBool b => b
  | VInt n => negb (n =? 0)
  | VFloat x => negb (x =? 0)%float
  | VStr s => negb (String.eqb s EmptyString)
  | VList l => match l with [] => false | _ => true end
  | VDict d => match map_to_list d with [] => false | _ => true end
  end.

Definition newline : string := String (ascii_of_N 10) EmptyString.

Definition print_summary `{Formatter} (y m : Z) : M unit :=
  let* s := summarize_month y m in
  print (newline +:+ "Ringkasan untuk " +:+ format_0d 4 y +:+ "-" +:+ format_0d 2 m) >>
  (let* v := lift (let? a := getitem s "income" in format_money a) in
   print ("  Total Pemasukan : Rp" +:+ v)) >>
  (let* v := lift (let? a := getitem s "expense" in format_money a) in
   print ("  Total Pengeluaran: Rp" +:+ v)) >>
  (let* v := lift (let? a := getitem s "balance" in format_money a) in
   print ("  Saldo            : Rp" +:+ v)) >>
  (let* v := lift (getitem s "count") in
   print ("  Jumlah transaksi : " +:+ show v)).

(** The line of [list_transactions] for the [i]-th row [t]; the fields
    are read and formatted from left to right. *)
Definition transaction_line `{Formatter} (i : Z) (t : value) : result string :=
  let? dt := getitem t "date" in
  let? ty := getitem t "type" in
  let? kind := str_upper ty in
  let? a := getitem t "amount" in
  let? amount := format_money a in
  let? category := dict_get_or t "category" (VStr EmptyString) in
  let? note := dict_get_or t "note" (VStr EmptyString) in
  Ok (decimal i +:+ ". [" +:+ show dt +:+ "] " +:+ ljust 7 kind +:+ " Rp" +:+ amount +:+
      " - " +:+ show category +:+ " " +:+ show note).

(** The [for] loop of [list_transactions], from index [i]. *)
Fixpoint list_loop `{Formatter} (i : Z) (txs : list value) : M unit :=
  match txs with
  | [] => ret tt
  | t :: rest =>
      let* line := lift (transaction_line i t) in
      print line >> list_loop (i + 1) rest
  end.

Definition list_transactions `{Formatter} (txs : value) : M unit :=
  if negb (truthy txs) then print "Tidak ada transaksi."
  else
    let* rows := lift (iterate txs) in
    list_loop 1 rows.

(** [f'{y}-{m:02d}-DD']. *)
Definition demo_date (y m : Z) (dd : string) : value :=
  VStr (decimal y +:+ "-" +:+ format_0d 2 m +:+ "-" +:+ dd).

Definition demo_run `{FloatParser} `{Formatter} : M unit :=
  let* today := today in
  let y := year today in
  let m := month today in
  add_transaction (VStr "income") (VInt 5000000) (VStr "Gaji")
    (VStr "Gaji bulan ini") (demo_date y m "01") >>
  add_transaction (VStr "expense") (VInt 1500000) (VStr "Sewa")
    (VStr "Sewa rumah") (demo_date y m "02") >>
  add_transaction (VStr "expense") (VInt 300000) (VStr "Makan")
    (VStr "Makan dan belanja") (demo_date y m "05") >>
  print "Menjalankan demo: menambahkan 3 transaksi contoh." >>
  print_summary y m.

(** The entries [demo_run] appends in year [y], month [m]. *)
Definition demo_entries (y m : Z) : list entry :=
  [ {| e_type := "income"; e_amount := 5000000; e_category := "Gaji";
       e_note := "Gaji bulan ini";
       e_date := decimal y +:+ "-" +:+ format_0d 2 m +:+ "-" +:+ "01" |};
    {| e_type := "expense"; e_amount := 1500000; e_category := "Sewa";
       e_note := "Sewa rumah";
       e_date := decimal y +:+ "-" +:+ format_0d 2 m +:+ "-" +:+ "02" |};
    {| e_type := "expense"; e_amount := 300000; e_category := "Makan";
       e_note := "Makan dan belanja";
       e_date := decimal y +:+ "-" +:+ format_0d 2 m +:+ "-" +:+ "05" |} ].

(** Several lines printed one after the other. *)
Definition with_lines (lines : list string) (w : world) : world :=
  fold_left (fun w l => with_line l w) lines w.

(** A row as [add_transaction] writes it for a type that is a string:
    a date, a string type, a float amount. *)
Definition kept_row (t : value) : Prop :=
  ∃ (r : gmap string value) dt k x,
    t = VDict r ∧ r !! "date" = Some dt ∧
    r !! "type" = Some (VStr k) ∧ r !! "amount" = Some (VFloat x).

(** A printer for the examples: it writes no digits. *)
Definition plain_formatter : Formatter :=
  {| money := fun _ => "#"; text := fun _ => "?" |}.

(** ** Further notions used by the properties *)

Definition warning : string :=
  "Peringatan: gagal membaca data.json; membuat data baru.".

(** A file that exists and that [json.load] refuses. *)
Definition unreadable (c : content) : Prop := ∀ doc, c ≠ Text doc.

(** The parts of the world that only [save_data] and the clock readings
    change. *)
Definition same_store (w w' : world) : Prop :=
  data_json w' = data_json w ∧ disk w' = disk w ∧
  clock w' = clock w ∧ ticks w' = ticks w.

(** The date [add_transaction] stores, and the world after it is
    settled: the default costs one reading of the clock. *)
Definition resolved_date (tx_date : value) (w : world) : value * world :=
  match tx_date with
  | VNone => (VStr (date_isoformat (on (clock w (ticks w)))), with_tick w)
  | _ => (tx_date, w)
  end.

(** The world after an append that went through: [d] is the document
    [load_data] returned, [rows] its list, [x] the converted amount. *)
Definition appended (tx_type category note tx_date : value) (x : float)
    (d : gmap string value) (rows : list value) (w : world) : world :=
  let dw := resolved_date tx_date (load_data w).2 in
  with_file
    (Some (Text (VDict (<["transactions" :=
       VList (rows ++ [txn_record tx_type x category note dw.1
                         (datetime_isoformat (clock dw.2 (ticks dw.2)))])]> d))))
    (with_tick dw.2).

Definition is_number (v : value) : bool :=
  match as_number v with
  | Some _ => true
  | None => false
  end.

(** A row a [sum] of [summarize_month] cannot get past: it has no
    ["type"], or [kind] is its type and its amount is missing or is not
    a number. *)
Definition breaks_sum (kind : string) (t : value) : bool :=
  match getitem t "type" with
  | Raise _ => true
  | Ok ty =>
      eq_str ty kind &&
      match getitem t "amount" with
      | Raise _ => true
      | Ok a => negb (is_number a)
      end
  end.

(** A ledger with a key of its own beside the list. *)
Definition tagged_ledger : gmap string value :=
  {[ "transactions" := VList [salary]; "owner" := VStr "Vira" ]}.

(** A row of March 2024 whose amount is text. *)
Definition text_amount : value :=
  VDict {[ "type" := VStr "expense"; "amount" := VStr "1500000";
           "date" := VStr "2024-03-02" ]}.

(** A reading of the clock that is a real date and time of day. *)
Definition valid_instant (t : instant) : bool :=
  valid_date (on t) &&
  (0 <=? hour t) && (hour t <? 24) &&
  (0 <=? minute t) && (minute t <? 60) &&
  (0 <=? second t) && (second t <? 60) &&
  (0 <=? microsecond t) && (microsecond t <? 1000000).

(** A date as a person writes it, which [fromisoformat] refuses. *)
Definition unreadable_date : value := VStr "7 Maret 2024".

(** A world whose file is corrupt. *)
Definition corrupt : world :=
  {| data_json := Some (Junk "{transactions: oops"); disk := Writable;
     clock := fun _ => noon; ticks := O; stdout := [] |}.

(** ** The menu

    A string is the UTF-8 text of a Python [str].  [str.strip()] drops
    the characters [str.isspace] accepts from both ends: the ASCII ones
    (9 to 13, 28 to 32), U+0085, U+00A0, U+1680, U+2000 to U+200A,
    U+2028, U+2029, U+202F, U+205F and U+3000, here by their bytes. *)
Definition whitespace : list (list N) :=
  (map (fun b => [b]) [9; 10; 11; 12; 13; 28; 29; 30; 31; 32] ++
   [[194; 133]; [194; 160]; [225; 154; 128]] ++
   map (fun b => [226; 128; b])
     [128; 129; 130; 131; 132; 133; 134; 135; 136; 137; 138; 168; 169; 175] ++
   [[226; 129; 159]; [227; 128; 128]])%N.

(** [s] without its prefix [p]. *)
Fixpoint after (p s : list N) : option (list N) :=
  match p, s with
  | [], _ => Some s
  | a :: p', b :: s' => if (a =? b)%N then after p' s' else None
  | _ :: _, [] => None
  end.

(** [s] without the first character of [table] it starts with. *)
Fixpoint skip_one (table : list (list N)) (s : list N) : option (list N) :=
  match table with
  | [] => None
  | p :: others =>
      match after p s with
      | Some rest => Some rest
      | None => skip_one others s
      end
  end.

Fixpoint skip (fuel : nat) (table : list (list N)) (s : list N) : list N :=
  match fuel with
  | O => s
  | S k =>
      match skip_one table s with
      | Some rest => skip k table rest
      | None => s
      end
  end.

Definition strip (s : string) : string :=
  let bytes := map N_of_ascii (list_ascii_of_string s) in
  let tail := skip (length bytes) whitespace bytes in
  let body := rev (skip (length tail) (map (@rev N) whitespace) (rev tail)) in
  string_of_list_ascii (map ascii_of_N body).

(** How a call of [interactive_menu] ends.  [EOFError] is what [input]
    raises at the end of the input; like the exceptions of [exn] it is
    not caught by the menu.  A [KeyboardInterrupt] comes from outside
    the input and has no place here. *)
Inductive ending :=
| Returned
| EOFError
| Escaped (e : exn).

(** A computation at the console: it reads lines of the input that is
    left, changes the world, and goes on with a value or ends the call
    of the menu. *)
Definition Session (A : Type) : Type :=
  list string → world → (A + ending) * list string * world.

Definition session_bind {A B} (m : Session A) (k : A → Session B) : Session B :=
  fun stdin w =>
    match m stdin w with
    | (inl a, rest, w') => k a rest w'
    | (inr e, rest, w') => (inr e, rest, w')
    end.

Notation "'let+' x ':=' m 'in' k" := (session_bind m (fun x => k))
  (at level 10, x name, m at level 100, k at level 200).
Notation "m1 '>>>' m2" := (session_bind m1 (fun _ => m2))
  (at level 60, right associativity).

(** An operation of the script called from the menu: what it raises
    ends the call. *)
Definition run {A} (m : M A) : Session A := fun stdin w =>
  match m w with
  | (Ok a, w') => (inl a, stdin, w')
  | (Raise e, w') => (inr (Escaped e), stdin, w')
  end.

Definition leave {A} (e : ending) : Session A := fun stdin w => (inr e, stdin, w).

(** [input(prompt)]: the prompt is written to the standard output,
    without a line end, and one line is read, without its line end. *)
Definition input (prompt : string) : Session string := fun stdin w =>
  match stdin with
  | [] => (inr EOFError, [], with_line prompt w)
  | line :: rest => (inl line, rest, with_line prompt w)
  end.

Definition quote : string := String (ascii_of_N 34) EmptyString.

(** Choices 1 and 2: [continue] after a refused amount goes back to the
    head of the loop, which is where the branch ends anyway. *)
Definition menu_add `{FloatParser} (tx_type ask invalid saved : string) : Session unit :=
  let+ amt := input ask in
  let amt := strip amt in
  match py_float (VStr amt) with
  | Raise _ => run (print invalid)
  | Ok _ =>
      let+ cat := input "Kategori (opsional): " in
      let cat := strip cat in
      let+ note := input "Catatan (opsional): " in
      let note := strip note in
      run (add_transaction (VStr tx_type) (VStr amt) (VStr cat) (VStr note) VNone) >>>
      run (print saved)
  end.

(** The [if]/[elif] chain on the choice; [break] is [leave Returned]. *)
Definition menu_choice `{FloatParser} `{Formatter} (choice : string) : Session unit :=
  if String.eqb choice "1" then
    menu_add "income" "Jumlah (contoh 150000): "
      "Jumlah tidak valid. Gunakan angka, mis. 150000 atau 150000.50"
      "Pemasukan tersimpan."
  else if String.eqb choice "2" then
    menu_add "expense" "Jumlah (contoh 50000): "
      "Jumlah tidak valid. Gunakan angka, mis. 50000 atau 50000.00"
      "Pengeluaran tersimpan."
  else if String.eqb choice "3" then
    let+ today := run today in
    run (print_summary (year today) (month today))
  else if String.eqb choice "4" then
    let+ data := run load_data in
    let+ txs := run (lift (dict_get_or data "transactions" (VList []))) in
    run (list_transactions txs)
  else if String.eqb choice "5" then
    let+ confirm :=
      input ("Ketik " +:+ quote +:+ "YA" +:+ quote +:+ " untuk konfirmasi hapus semua: ") in
    run (interactive_menu_clear (strip confirm))
  else if String.eqb choice "0" then
    run (print "Selesai. Sampai jumpa!") >>> leave Returned
  else
    run (print "Pilihan tidak dikenal. Coba lagi.").

(** One turn of the [while True] loop. *)
Definition menu_turn `{FloatParser} `{Formatter} : Session unit :=
  run (print (newline +:+ "--- Manajemen Keuangan Sederhana ---")) >>>
  run (print "1) Tambah Pemasukan") >>>
  run (print "2) Tambah Pengeluaran") >>>
  run (print "3) Lihat Ringkasan Bulan Ini") >>>
  run (print "4) Lihat Semua Transaksi") >>>
  run (print "5) Hapus Semua Transaksi (konfirmasi)") >>>
  run (print "0) Keluar") >>>
  let+ choice := input "Pilih angka: " in
  menu_choice (strip choice).

(** The loop, for at most [fuel] turns. *)
Fixpoint menu_loop `{FloatParser} `{Formatter} (fuel : nat)
    (stdin : list string) (w : world) : option (ending * list string * world) :=
  match fuel with
  | O => None
  | S k =>
      match menu_turn stdin w with
      | (inl _, rest, w') => menu_loop k rest w'
      | (inr e, rest, w') => Some (e, rest, w')
      end
  end.

(** Every turn reads a line, so there are no more turns than lines,
    but for the one that finds the input at its end. *)
Definition interactive_menu `{FloatParser} `{Formatter}
    (stdin : list string) (w : world) : option (ending * list string * world) :=
  menu_loop (S (length stdin)) stdin w.

(** ** Notions used by the properties of the menu *)

(** What a turn writes before it reads the choice. *)
Definition menu_lines : list string :=
  [ newline +:+ "--- Manajemen Keuangan Sederhana ---";
    "1) Tambah Pemasukan";
    "2) Tambah Pengeluaran";
    "3) Lihat Ringkasan Bulan Ini";
    "4) Lihat Semua Transaksi";
    "5) Hapus Semua Transaksi (konfirmasi)";
    "0) Keluar";
    "Pilih angka: " ].

(** A store the menu can work on: the device takes writes, and what
    [load_data] returns is a ledger of rows such as [add_transaction]
    writes. *)
Definition sound_store (w : world) : Prop :=
  disk w = Writable ∧
  ∃ d rows, (load_data w).1 = Ok (VDict d) ∧
            d !! "transactions" = Some (VList rows) ∧ Forall kept_row rows.

(** A line that neither asks for an entry nor confirms a clearing. *)
Definition harmless (line : string) : Prop :=
  strip line ≠ "1" ∧ strip line ≠ "2" ∧ upper (strip line) ≠ "YA".

(** A computation of the menu that reads on and does not return from
    it: the input left is the end of the input it found, and the end of
    the input is only met when nothing is left. *)
Definition reads_on {A} (m : Session A) : Prop :=
  ∀ stdin w r rest w',
    m stdin w = (r, rest, w') →
    rest `suffix_of` stdin ∧ r ≠ inr Returned ∧ (r = inr EOFError → rest = []).

(** An operation that leaves the file and the device as they are. *)
Definition keeps_file {A} (m : M A) : Prop :=
  ∀ w, data_json (m w).2 = data_json w ∧ disk (m w).2 = disk w.

(** A computation of the menu that, on harmless lines, leaves the file
    and the device as they are. *)
Definition looks_on {A} (m : Session A) : Prop :=
  ∀ stdin w r rest w',
    Forall harmless stdin →
    m stdin w = (r, rest, w') →
    rest `suffix_of` stdin ∧ data_json w' = data_json w ∧ disk w' = disk w.

(** A computation of the menu that, on a sound store, raises nothing
    but [EOFError] and leaves a sound store. *)
Definition safe_on {A} (m : Session A) : Prop :=
  ∀ stdin w r rest w',
    sound_store w →
    m stdin w = (r, rest, w') →
    sound_store w' ∧ ∀ e, r ≠ inr (Escaped e).

(** * Properties *)

(** ** Running computations *)

Lemma bind_ok {A B} (m : M A) (k : A → M B) w a w' :
  m w = (Ok a, w') → bind m k w = k a w'.
Proof. intros Hm. unfold bind. now rewrite Hm. Qed.

Lemma bind_lift_ok {A B} (r : result A) (k : A → M B) w a :
  r = Ok a → bind (lift r) k w = k a w.
Proof. intros ->. reflexivity. Qed.

Lemma bind_lift_raise {A B} (r : result A) (k : A → M B) w e :
  r = Raise e → bind (lift r) k w = (Raise e, w).
Proof. intros ->. reflexivity. Qed.

(** ** The store *)

Lemma load_data_missing w :
  data_json w = None → load_data w = (Ok (VDict empty_ledger), w).
Proof.
  intros Hf. destruct w; simpl in Hf; subst. reflexivity.
Qed.

Lemma load_data_text w doc :
  data_json w = Some (Text doc) → load_data w = (Ok doc, w).
Proof.
  intros Hf. destruct w; simpl in Hf; subst. reflexivity.
Qed.

Lemma load_data_ledger w d :
  ledger_on_disk w d → load_data w = (Ok (VDict d), w).
Proof.
  intros [[Hf ->] | Hf].
  - now apply load_data_missing.
  - now apply load_data_text.
Qed.

(** Whatever the file holds, [load_data] returns, and leaves the file. *)
Lemma load_data_returns w :
  ∃ doc w', load_data w = (Ok doc, w') ∧ data_json w' = data_json w.
Proof.
  destruct w as [[[doc | d | raw] |] dk ck tk out]; eexists _, _; split; reflexivity.
Qed.

Lemma save_data_writable d w :
  disk w = Writable →
  save_data d w = (Ok tt, with_file (Some (Text (VDict d))) w).
Proof.
  intros Hd. destruct w; simpl in Hd; subst. reflexivity.
Qed.

Lemma save_data_open_fails d w :
  disk w = OpenFails → save_data d w = (Raise OSError, w).
Proof.
  intros Hd. destruct w; simpl in Hd; subst. reflexivity.
Qed.

Lemma save_data_write_fails d w :
  disk w = WriteFails →
  save_data d w = (Raise OSError, with_file (Some (Partial d)) w).
Proof.
  intros Hd. destruct w; simpl in Hd; subst. reflexivity.
Qed.

(** The record [add_transaction] builds for an entry holds the entry's
    fields under their keys. *)
Lemma txn_record_stored (ty : string) (x : float) (c n dt stamp : string) :
  stored {| e_type := ty; e_amount := x; e_category := c; e_note := n; e_date := dt |}
    (txn_record (VStr ty) x (VStr c) (VStr n) (VStr dt) stamp).
Proof.
  eexists. split; [reflexivity |]. repeat (split; [reflexivity |]).
  split; [now exists stamp |]. rewrite !dom_insert_L, dom_singleton_L. set_solver.
Qed.

Section Store.
Context `{FloatParser}.

(** The steps of [add_transaction] up to the write. *)
Lemma add_transaction_reaches_save w d rows tx_type amount x category note tx_date :
  ledger_on_disk w d →
  d !! "transactions" = Some (VList rows) →
  tx_date ≠ VNone →
  py_float amount = Ok x →
  add_transaction tx_type amount category note tx_date w =
  save_data
    (<["transactions" :=
         VList (rows ++ [txn_record tx_type x category note tx_date
                           (datetime_isoformat (clock w (ticks w)))])]> d)
    (with_tick w).
Proof.
  intros Hl Hrows Hdate Hx. unfold add_transaction.
  rewrite (bind_ok _ _ _ _ _ (load_data_ledger _ _ Hl)).
  assert (Hd : (match tx_date with
                | VNone => let* d0 := today in ret (VStr (date_isoformat d0))
                | _ => ret tx_date
                end) w = (Ok tx_date, w)) by (destruct tx_date; done).
  rewrite (bind_ok _ _ _ _ _ Hd).
  rewrite (bind_lift_ok _ _ _ _ Hx).
  unfold bind at 1, now.
  assert (Hg : getitem (VDict d) "transactions" = Ok (VList rows))
    by (simpl; now rewrite Hrows).
  rewrite (bind_lift_ok _ _ _ _ Hg).
  reflexivity.
Qed.

Lemma add_transaction_stores w d rows tx_type amount x category note tx_date :
  ledger_on_disk w d →
  d !! "transactions" = Some (VList rows) →
  disk w = Writable →
  tx_date ≠ VNone →
  py_float amount = Ok x →
  add_transaction tx_type amount category note tx_date w =
  (Ok tt,
   with_file
     (Some (Text (VDict
        (<["transactions" :=
             VList (rows ++ [txn_record tx_type x category note tx_date
                               (datetime_isoformat (clock w (ticks w)))])]> d))))
     (with_tick w)).
Proof.
  intros Hl Hrows Hdisk Hdate Hx.
  rewrite (add_transaction_reaches_save _ _ _ _ _ _ _ _ _ Hl Hrows Hdate Hx).
  now apply save_data_writable.
Qed.

Lemma append_all_stores es :
  ∀ w d old,
    ledger_on_disk w d →
    d !! "transactions" = Some (VList old) →
    disk w = Writable →
    ∃ rows w',
      append_all es w = (Ok tt, w') ∧
      ledger_on_disk w' (<["transactions" := VList (old ++ rows)]> d) ∧
      disk w' = Writable ∧
      Forall2 stored es rows.
Proof.
  induction es as [| e es IH]; intros w d old Hl Hold Hdisk.
  - exists [], w. rewrite app_nil_r, (insert_id _ _ _ Hold). repeat split; auto.
  - set (row := txn_record (VStr (e_type e)) (e_amount e) (VStr (e_category e))
                  (VStr (e_note e)) (VStr (e_date e))
                  (datetime_isoformat (clock w (ticks w)))).
    set (d1 := <["transactions" := VList (old ++ [row])]> d).
    set (w1 := with_file (Some (Text (VDict d1))) (with_tick w)).
    assert (Hstep : append e w = (Ok tt, w1))
      by (unfold append; now apply add_transaction_stores).
    destruct (IH w1 d1 (old ++ [row])) as (rows & w' & Hrun & Hl' & Hdisk' & Hall).
    + now right.
    + apply lookup_insert_eq.
    + exact Hdisk.
    + exists (row :: rows), w'. simpl.
      rewrite (bind_ok _ _ _ _ _ Hstep). split; [exact Hrun |].
      split; [| split; [exact Hdisk' |]].
      * unfold d1 in Hl'. rewrite insert_insert_eq, <- app_assoc in Hl'. exact Hl'.
      * constructor; [destruct e; apply txn_record_stored | exact Hall].
Qed.


End Store.


(** C8. Missing-file bootstrap: when [data.json] does not exist,
    [load_data] returns the empty ledger; nothing is raised, nothing is
    printed and the world is left as it was. *)
Theorem missing_file_bootstrap (w : world) :
  data_json w = None →
  load_data w = (Ok (VDict {[ "transactions" := VList [] ]}), w).
Proof. intros Hf. now rewrite (load_data_missing _ Hf). Qed.

Lemma missing_file_bootstrap_witness :
  load_data fresh = (Ok (VDict {[ "transactions" := VList [] ]}), fresh).
Proof. apply (missing_file_bootstrap fresh). reflexivity. Defined.

Lemma clear_confirmed confirm w :
  upper confirm = "YA" →
  disk w = Writable →
  interactive_menu_clear confirm w =
  (Ok tt, with_line "Semua transaksi dihapus."
            (with_file (Some (Text (VDict empty_ledger))) w)).
Proof.
  intros Hc Hd. unfold interactive_menu_clear. rewrite Hc. simpl.
  now rewrite (bind_ok _ _ _ _ _ (save_data_writable _ _ Hd)).
Qed.

(** C9. Idempotent clear: whatever [data.json] holds, clearing twice in
    a row (answer [YA] in any letter case) leaves the empty ledger on
    disk after each call, and [load_data] then returns it. *)
Theorem clear_twice (confirm : string) (w : world) :
  upper confirm = "YA" →
  disk w = Writable →
  ∃ w1 w2,
    interactive_menu_clear confirm w = (Ok tt, w1) ∧
    data_json w1 = Some (Text (VDict {[ "transactions" := VList [] ]})) ∧
    interactive_menu_clear confirm w1 = (Ok tt, w2) ∧
    data_json w2 = Some (Text (VDict {[ "transactions" := VList [] ]})) ∧
    load_data w2 = (Ok (VDict {[ "transactions" := VList [] ]}), w2).
Proof.
  intros Hc Hd.
  set (w1 := with_line "Semua transaksi dihapus."
               (with_file (Some (Text (VDict empty_ledger))) w)).
  set (w2 := with_line "Semua transaksi dihapus."
               (with_file (Some (Text (VDict empty_ledger))) w1)).
  exists w1, w2. split; [now apply clear_confirmed |].
  split; [reflexivity |]. split; [now apply clear_confirmed |].
  split; [reflexivity |]. now apply load_data_text.
Qed.

Lemma clear_twice_witness :
  ∃ w1 w2,
    interactive_menu_clear "ya" (one_record Writable) = (Ok tt, w1) ∧
    data_json w1 = Some (Text (VDict {[ "transactions" := VList [] ]})) ∧
    interactive_menu_clear "ya" w1 = (Ok tt, w2) ∧
    data_json w2 = Some (Text (VDict {[ "transactions" := VList [] ]})) ∧
    load_data w2 = (Ok (VDict {[ "transactions" := VList [] ]}), w2).
Proof. apply (clear_twice "ya" (one_record Writable)); reflexivity. Defined.

(** ** Validation and failing writes *)

Section Append.
Context `{FloatParser}.

(** The default date costs one reading of the clock and nothing else. *)
Lemma default_date_returns (tx_date : value) w :
  ∃ v w',
    (match tx_date with
     | VNone => let* d := today in ret (VStr (date_isoformat d))
     | _ => ret tx_date
     end) w = (Ok v, w') ∧ data_json w' = data_json w.
Proof. destruct tx_date; eexists _, _; split; reflexivity. Qed.

Lemma add_transaction_bad_amount
    (tx_type amount category note tx_date : value) (e : exn) (w : world) :
  py_float amount = Raise e →
  ∃ w',
    add_transaction tx_type amount category note tx_date w = (Raise e, w') ∧
    data_json w' = data_json w.
Proof.
  intros Hbad. unfold add_transaction.
  destruct (load_data_returns w) as (doc & w1 & Hload & Hf1).
  rewrite (bind_ok _ _ _ _ _ Hload).
  destruct (default_date_returns tx_date w1) as (v & w2 & Hdate & Hf2).
  rewrite (bind_ok _ _ _ _ _ Hdate), (bind_lift_raise _ _ _ _ Hbad).
  exists w2. split; [reflexivity | congruence].
Qed.

(** C4, as the code has it. An amount [float] cannot convert is
    rejected before anything is persisted: [add_transaction] raises the
    conversion's error and [data.json] is left as it was.  Every amount
    [float] converts, below zero or not, is accepted: the record is
    written with [float(amount)] as its amount. *)
Theorem amount_validation
    (tx_type amount category note tx_date : value) (w : world) :
  (∀ e, py_float amount = Raise e →
     ∃ w',
       add_transaction tx_type amount category note tx_date w = (Raise e, w') ∧
       data_json w' = data_json w) ∧
  (∀ x d rows,
     py_float amount = Ok x →
     ledger_on_disk w d →
     d !! "transactions" = Some (VList rows) →
     disk w = Writable →
     tx_date ≠ VNone →
     ∃ w' stamp,
       add_transaction tx_type amount category note tx_date w = (Ok tt, w') ∧
       data_json w' =
         Some (Text (VDict (<["transactions" :=
            VList (rows ++ [txn_record tx_type x category note tx_date stamp])]> d)))).
Proof.
  split.
  - intros e Hbad. now apply add_transaction_bad_amount.
  - intros x d rows Hx Hl Hrows Hdisk Hdate. eexists _, _.
    rewrite (add_transaction_stores _ _ _ _ _ _ _ _ _ Hl Hrows Hdisk Hdate Hx).
    split; reflexivity.
Qed.

(** C5, as the code has it. What an append that reaches its write does
    depends on the device: the new ledger is written; or the file cannot
    be opened and stays as it was; or the write stops after the file was
    opened, and the file holds a part of the new document only. *)
Theorem append_by_device
    (tx_type amount category note tx_date : value) (x : float)
    (w : world) (d : gmap string value) (rows : list value) :
  ledger_on_disk w d →
  d !! "transactions" = Some (VList rows) →
  tx_date ≠ VNone →
  py_float amount = Ok x →
  let d' := <["transactions" :=
                VList (rows ++ [txn_record tx_type x category note tx_date
                                  (datetime_isoformat (clock w (ticks w)))])]> d in
  let after := add_transaction tx_type amount category note tx_date w in
  match disk w with
  | Writable => after.1 = Ok tt ∧ data_json after.2 = Some (Text (VDict d'))
  | OpenFails => after.1 = Raise OSError ∧ data_json after.2 = data_json w
  | WriteFails => after.1 = Raise OSError ∧ data_json after.2 = Some (Partial d')
  end.
Proof.
  intros Hl Hrows Hdate Hx d' after. unfold after.
  rewrite (add_transaction_reaches_save _ _ _ _ _ _ _ _ _ Hl Hrows Hdate Hx).
  fold d'. destruct (disk w) eqn:Hd.
  - now rewrite save_data_writable.
  - now rewrite save_data_open_fails.
  - now rewrite save_data_write_fails.
Qed.

End Append.

Lemma amount_validation_witness :
  ∃ w',
    @add_transaction digits_parser (VStr "income") (VStr "abc") (VStr "Gaji")
      (VStr "") VNone (one_record Writable) = (Raise ValueError, w') ∧
    data_json w' = data_json (one_record Writable).
Proof.
  apply (proj1 (@amount_validation digits_parser (VStr "income") (VStr "abc")
                  (VStr "Gaji") (VStr "") VNone (one_record Writable))).
  reflexivity.
Defined.

(** C4, counterexample: an expense of -5 is not rejected; it is written
    to the file with its sign. *)
Lemma negative_amount_persisted :
  (-5 <? 0)%float = true ∧
  @add_transaction digits_parser (VStr "expense") (VFloat (-5)) (VStr "Makan")
    (VStr "") (VStr "2024-03-05") fresh =
  (Ok tt,
   with_file
     (Some (Text (VDict {[ "transactions" :=
        VList [txn_record (VStr "expense") (-5) (VStr "Makan") (VStr "")
                 (VStr "2024-03-05") "2024-03-07T12:00:00"] ]})))
     (with_tick fresh)).
Proof. split; vm_compute; reflexivity. Qed.

Lemma append_by_device_witness :
  let after := @add_transaction digits_parser (VStr "expense") (VInt 1500000)
                 (VStr "Sewa") (VStr "Sewa rumah") (VStr "2024-03-02")
                 (one_record OpenFails) in
  after.1 = Raise OSError ∧ data_json after.2 = data_json (one_record OpenFails).
Proof.
  apply (@append_by_device digits_parser (VStr "expense") (VInt 1500000)
           (VStr "Sewa") (VStr "Sewa rumah") (VStr "2024-03-02") 1500000
           (one_record OpenFails) {[ "transactions" := VList [salary] ]} [salary]).
  - now right.
  - reflexivity.
  - discriminate.
  - reflexivity.
Defined.

(** C5, counterexample: the device fails during the write of an append;
    the ledger that was on disk is gone, a torn document is in its
    place. *)
Lemma failed_write_tears_file :
  let before := one_record WriteFails in
  let after := @add_transaction digits_parser (VStr "expense") (VInt 1500000)
                 (VStr "Sewa") (VStr "Sewa rumah") (VStr "2024-03-02") before in
  after.1 = Raise OSError ∧
  data_json before = Some (Text (VDict {[ "transactions" := VList [salary] ]})) ∧
  data_json after.2 =
    Some (Partial {[ "transactions" :=
       VList [salary;
              txn_record (VStr "expense") 1500000 (VStr "Sewa") (VStr "Sewa rumah")
                (VStr "2024-03-02") "2024-03-07T12:00:00"] ]}) ∧
  data_json after.2 ≠ data_json before.
Proof.
  repeat split; try (vm_compute; reflexivity).
  vm_compute. discriminate.
Qed.

(** C6, the failing inputs: a file holding the JSON object [{}] or the
    JSON list [[]] is read without complaint by [load_data], and the
    three operations that subscript its result raise. *)
Lemma wrong_shape_crashes :
  (load_data (holding (VDict ∅))).1 = Ok (VDict ∅) ∧
  (@add_transaction digits_parser (VStr "income") (VInt 5000000) (VStr "Gaji")
     (VStr "") (VStr "2024-03-01") (holding (VDict ∅))).1 = Raise KeyError ∧
  (get_month_transactions 2024 3 (holding (VDict ∅))).1 = Raise KeyError ∧
  (summarize_month 2024 3 (holding (VDict ∅))).1 = Raise KeyError ∧
  (@add_transaction digits_parser (VStr "income") (VInt 5000000) (VStr "Gaji")
     (VStr "") (VStr "2024-03-01") (holding (VList []))).1 = Raise TypeError ∧
  (get_month_transactions 2024 3 (holding (VList []))).1 = Raise TypeError ∧
  (summarize_month 2024 3 (holding (VList []))).1 = Raise TypeError.
Proof. repeat split; vm_compute; reflexivity. Qed.

(** ** The aggregator *)

(** The two [try] blocks compute the effective date of the
    specification; an exception in both is the absence of a date. *)
Lemma row_date_effective (t : value) :
  match row_date t with
  | Ok d => Some d
  | Raise _ => None
  end = effective_date t.
Proof.
  unfold row_date, effective_date, field_date.
  destruct t as [| b | n | x | s | items | entries]; try reflexivity.
  simpl.
  destruct (entries !! "date") as [[| b | n | x | s | items | es] |]; simpl;
    try destruct (fromisoformat_str s); simpl; try reflexivity;
    destruct (entries !! "created_at") as [[| b' | n' | x' | s' | items' | es'] |];
    simpl; try reflexivity; destruct (fromisoformat_str s'); reflexivity.
Qed.

(** The loop is a filter that keeps the order of the rows. *)
Lemma month_loop_filter (y m : Z) (rows : list value) :
  ∀ results,
    month_loop y m rows results = results ++ List.filter (in_bucket y m) rows.
Proof.
  induction rows as [| t rows IH]; intros results; simpl.
  - now rewrite app_nil_r.
  - unfold in_bucket at 1. rewrite <- row_date_effective.
    destruct (row_date t) as [d | e]; [| apply IH].
    destruct ((year d =? y) && (month d =? m)); [| apply IH].
    rewrite IH, <- app_assoc. reflexivity.
Qed.

Lemma get_month_transactions_filter (y m : Z) w data w' rows :
  load_data w = (Ok data, w') →
  getitem data "transactions" = Ok (VList rows) →
  get_month_transactions y m w = (Ok (List.filter (in_bucket y m) rows), w').
Proof.
  intros Hload Hrows. unfold get_month_transactions.
  rewrite (bind_ok _ _ _ _ _ Hload), (bind_lift_ok _ _ _ _ Hrows).
  unfold bind, lift, ret. simpl. now rewrite month_loop_filter.
Qed.

Lemma filter_sublist {A} (f : A → bool) (l : list A) :
  List.filter f l `sublist_of` l.
Proof.
  induction l as [| a l IH]; simpl; [constructor |].
  destruct (f a); now constructor.
Qed.

(** C3. Date resolution: on every ledger [load_data] returns, the rows
    [get_month_transactions] selects for (year, month) are those whose
    effective date (the [date] field when it parses, else [created_at]
    when that parses) falls in the month, in ledger order; a row with no
    effective date is in no bucket and raises nothing; a row without
    [date] whose [created_at] is 2024-05-10T10:00:00 is in the bucket of
    May 2024. *)
Theorem date_resolution (w w' : world) (data : value) (rows : list value) :
  load_data w = (Ok data, w') →
  getitem data "transactions" = Ok (VList rows) →
  (∀ y m, get_month_transactions y m w =
            (Ok (List.filter (in_bucket y m) rows), w')) ∧
  (∀ y m, List.filter (in_bucket y m) rows `sublist_of` rows) ∧
  (∀ t y m, effective_date t = None → t ∉ List.filter (in_bucket y m) rows) ∧
  (∀ r : gmap string value,
     r !! "date" = None →
     r !! "created_at" = Some (VStr "2024-05-10T10:00:00") →
     VDict r ∈ rows →
     VDict r ∈ List.filter (in_bucket 2024 5) rows).
Proof.
  intros Hload Hrows.
  split; [intros y m; exact (get_month_transactions_filter y m _ _ _ _ Hload Hrows) |].
  split; [intros y m; apply filter_sublist |]. split.
  - intros t y m Hnone Hin. apply list_elem_of_In, filter_In in Hin as [_ Hb].
    unfold in_bucket in Hb. now rewrite Hnone in Hb.
  - intros r Hdate Hcreated Hin.
    apply list_elem_of_In, filter_In. split; [now apply list_elem_of_In |].
    unfold in_bucket, effective_date, field_date. rewrite Hdate, Hcreated.
    reflexivity.
Qed.

(** Sums over well-formed rows: the running total is the int 0 or a
    float, and no step raises. *)
Lemma sum_amounts_total (kind : string) (txs : list value) :
  Forall well_formed txs →
  ∀ acc, running_total acc →
    ∃ total, sum_amounts kind txs acc = Ok total ∧ running_total total.
Proof.
  induction 1 as [| t txs (d & x & -> & Hamount & Htype) _ IH]; intros acc Hacc.
  - now exists acc.
  - assert (Hadd : ∃ x', py_add acc (VFloat x) = Ok (VFloat x')).
    { destruct Hacc as [-> | [x0 ->]]; eexists; reflexivity. }
    destruct Hadd as [x' Hadd].
    cbn [sum_amounts getitem].
    destruct Htype as [Ht | Ht]; rewrite Ht, Hamount; cbn [result_bind];
      destruct (eq_str _ kind); rewrite ?Hadd; cbn [result_bind];
      apply IH; first [exact Hacc | right; now exists x'].
Qed.

Lemma py_sub_totals (a b : value) :
  running_total a → running_total b → ∃ c, py_sub a b = Ok c.
Proof.
  intros [-> | [x ->]] [-> | [y ->]]; eexists; reflexivity.
Qed.

(** A well-formed row is an income or an expense, not both. *)
Lemma kinds_partition (txs : list value) :
  Forall well_formed txs →
  length txs =
  (length (List.filter (has_kind "income") txs) +
   length (List.filter (has_kind "expense") txs))%nat.
Proof.
  induction 1 as [| t txs (d & x & -> & _ & Htype) _ IH]; [reflexivity |].
  assert (Hk : has_kind "income" (VDict d) = negb (has_kind "expense" (VDict d)))
    by (unfold has_kind; simpl; destruct Htype as [Ht | Ht]; now rewrite Ht).
  cbn [List.filter]. rewrite Hk.
  destruct (has_kind "expense" (VDict d)); simpl; rewrite IH; lia.
Qed.

(** C2. Summary additivity: on every ledger and for every (year,
    month) whose transactions are well formed (kind income or expense,
    a float amount), [summarize_month] returns a summary whose balance
    is income total minus expense total and whose count is the number of
    income rows of the month plus the number of expense rows of the
    month. *)
Theorem summary_additivity (y m : Z) (w w' : world) (data : value) (rows : list value) :
  load_data w = (Ok data, w') →
  getitem data "transactions" = Ok (VList rows) →
  let of_month := List.filter (in_bucket y m) rows in
  Forall well_formed of_month →
  ∃ income expense balance,
    summarize_month y m w =
      (Ok (VDict {[ "income" := income;
                    "expense" := expense;
                    "balance" := balance;
                    "count" := VInt (Z.of_nat
                       (length (List.filter (has_kind "income") of_month) +
                        length (List.filter (has_kind "expense") of_month))) ]}), w') ∧
    py_sub income expense = Ok balance.
Proof.
  intros Hload Hrows of_month Hm.
  destruct (sum_amounts_total "income" of_month Hm (VInt 0)) as (inc & Hinc & Ti);
    [now left |].
  destruct (sum_amounts_total "expense" of_month Hm (VInt 0)) as (exp & Hexp & Te);
    [now left |].
  destruct (py_sub_totals inc exp Ti Te) as [bal Hbal].
  exists inc, exp, bal. split; [| exact Hbal].
  unfold summarize_month.
  rewrite (bind_ok _ _ _ _ _ (get_month_transactions_filter y m _ _ _ _ Hload Hrows)).
  fold of_month.
  rewrite (bind_lift_ok _ _ _ _ Hinc), (bind_lift_ok _ _ _ _ Hexp),
    (bind_lift_ok _ _ _ _ Hbal).
  unfold ret. now rewrite (kinds_partition of_month Hm).
Qed.

Lemma date_resolution_witness :
  get_month_transactions 2024 5 (holding (VDict {[ "transactions" := VList mixed_rows ]})) =
    (Ok [VDict undated], holding (VDict {[ "transactions" := VList mixed_rows ]})) ∧
  VDict undated ∈ List.filter (in_bucket 2024 5) mixed_rows.
Proof.
  pose proof (date_resolution
                (holding (VDict {[ "transactions" := VList mixed_rows ]}))
                (holding (VDict {[ "transactions" := VList mixed_rows ]}))
                (VDict {[ "transactions" := VList mixed_rows ]}) mixed_rows
                eq_refl eq_refl) as (Hrun & _ & _ & Hin).
  split; [exact (Hrun 2024 5) |].
  apply (Hin undated); try reflexivity.
  unfold mixed_rows. apply list_elem_of_In. simpl. tauto.
Defined.

Lemma summary_additivity_witness :
  ∃ income expense balance,
    summarize_month 2024 3 (holding (VDict {[ "transactions" := VList [salary; rent] ]})) =
      (Ok (VDict {[ "income" := income;
                    "expense" := expense;
                    "balance" := balance;
                    "count" := VInt 2 ]}),
       holding (VDict {[ "transactions" := VList [salary; rent] ]})) ∧
    py_sub income expense = Ok balance.
Proof.
  apply (summary_additivity 2024 3
           (holding (VDict {[ "transactions" := VList [salary; rent] ]}))
           (holding (VDict {[ "transactions" := VList [salary; rent] ]}))
           (VDict {[ "transactions" := VList [salary; rent] ]}) [salary; rent]).
  - reflexivity.
  - reflexivity.
  - repeat constructor.
    + eexists _, _. split; [reflexivity |]. split; [reflexivity | left; reflexivity].
    + eexists _, _. split; [reflexivity |]. split; [reflexivity | right; reflexivity].
Defined.

(** The count is the length of the month's rows whatever their kind: a
    row of a third kind is counted and enters neither total. *)
Lemma third_kind_is_counted :
  (summarize_month 2024 3
     (holding (VDict {[ "transactions" :=
        VList [txn_record (VStr "transfer") 70000 (VStr "") (VStr "")
                 (VStr "2024-03-09") "2024-03-09T08:00:00"] ]}))).1 =
  Ok (VDict {[ "income" := VInt 0; "expense" := VInt 0;
               "balance" := VInt 0; "count" := VInt 1 ]}).
Proof. vm_compute. reflexivity. Qed.

Section Scenario.
Context `{FloatParser}.

(** C7. Reference scenario: from an empty store, after an income of
    5,000,000 dated 2024-03-01 and expenses of 1,500,000 dated
    2024-03-02 and 300,000 dated 2024-03-05, the summary of March 2024
    has income 5000000, expense 1800000, balance 3200000, count 3. *)
Theorem reference_scenario (w : world) :
  ledger_on_disk w empty_ledger →
  disk w = Writable →
  ∃ w',
    (march_appends >> summarize_month 2024 3) w =
    (Ok (VDict {[ "income" := VFloat 5000000;
                  "expense" := VFloat 1800000;
                  "balance" := VFloat 3200000;
                  "count" := VInt 3 ]}), w').
Proof.
  intros Hstart Hdisk.
  pose proof (add_transaction_stores w empty_ledger [] (VStr "income") (VInt 5000000)
                5000000 (VStr "Gaji") (VStr "Gaji bulan ini") (VStr "2024-03-01"))
    as H1.
  rewrite app_nil_l in H1.
  set (r1 := txn_record _ _ _ _ _ _) in H1. set (d1 := <[_ := _]> _) in H1.
  set (w1 := with_file _ _) in H1.
  specialize (H1 Hstart eq_refl Hdisk ltac:(discriminate) eq_refl).
  pose proof (add_transaction_stores w1 d1 [r1] (VStr "expense") (VInt 1500000)
                1500000 (VStr "Sewa") (VStr "Sewa rumah") (VStr "2024-03-02"))
    as H2.
  set (r2 := txn_record _ _ _ _ _ _) in H2. set (d2 := <[_ := _]> _) in H2.
  set (w2 := with_file _ _) in H2.
  specialize (H2 (or_intror eq_refl) (lookup_insert_eq _ _ _) Hdisk
                ltac:(discriminate) eq_refl).
  pose proof (add_transaction_stores w2 d2 ([r1] ++ [r2]) (VStr "expense") (VInt 300000)
                300000 (VStr "Makan") (VStr "Makan dan belanja") (VStr "2024-03-05"))
    as H3.
  set (r3 := txn_record _ _ _ _ _ _) in H3. set (d3 := <[_ := _]> _) in H3.
  set (w3 := with_file _ _) in H3.
  specialize (H3 (or_intror eq_refl) (lookup_insert_eq _ _ _) Hdisk
                ltac:(discriminate) eq_refl).
  assert (Hm : march_appends w = (Ok tt, w3)).
  { unfold march_appends. rewrite (bind_ok _ _ _ _ _ H1), (bind_ok _ _ _ _ _ H2).
    exact H3. }
  exists w3. rewrite (bind_ok _ _ _ _ _ Hm).
  assert (Hload : load_data w3 = (Ok (VDict d3), w3)) by now apply load_data_text.
  assert (Hrows : getitem (VDict d3) "transactions" = Ok (VList (([r1] ++ [r2]) ++ [r3])))
    by (simpl; unfold d3; now rewrite lookup_insert_eq).
  unfold summarize_month.
  rewrite (bind_ok _ _ _ _ _ (get_month_transactions_filter 2024 3 _ _ _ _ Hload Hrows)).
  unfold r1, r2, r3.
  generalize (datetime_isoformat (clock w (ticks w))),
             (datetime_isoformat (clock w1 (ticks w1))),
             (datetime_isoformat (clock w2 (ticks w2))).
  intros s1 s2 s3. generalize w3. intros w'.
  vm_compute. reflexivity.
Qed.

End Scenario.

Lemma reference_scenario_witness :
  ∃ w',
    (@march_appends digits_parser >> summarize_month 2024 3) fresh =
    (Ok (VDict {[ "income" := VFloat 5000000;
                  "expense" := VFloat 1800000;
                  "balance" := VFloat 3200000;
                  "count" := VInt 3 ]}), w').
Proof. apply (@reference_scenario digits_parser fresh); [now left | reflexivity]. Defined.

(** ** The file as it stands *)

(** With the stray character removed the lines are well indented, and
    an operation run from them is the operation itself. *)
Lemma repaired_lines_compile : compile repaired_lines = None.
Proof. reflexivity. Qed.

Lemma repaired_lines_run {A} (op : M A) (w : world) :
  run_in repaired_lines op w = Ran (op w).1 (op w).2.
Proof. unfold run_in. rewrite repaired_lines_compile. now destruct (op w). Qed.

(** C10. The file is not valid Python: line 60, [except Exception:6],
    carries its suite on the same line, so the deeper line 61 is an
    unexpected indent and the compiler refuses the text, whatever lines
    follow; run from it, no operation executes in any world,
    [get_month_transactions] and [summarize_month] among them. *)
Theorem source_refused :
  nth_error source_lines 6 = Some (indented 2 "except Exception:6") ∧
  (∀ rest, compile (source_lines ++ rest) = Some (UnexpectedIndent 61)) ∧
  (∀ rest (A : Type) (op : M A) (w : world),
     run_in (source_lines ++ rest) op w = Refused (UnexpectedIndent 61)) ∧
  (∀ rest (y m : Z) (w : world),
     run_in (source_lines ++ rest) (get_month_transactions y m) w =
       Refused (UnexpectedIndent 61) ∧
     run_in (source_lines ++ rest) (summarize_month y m) w =
       Refused (UnexpectedIndent 61)).
Proof.
  assert (Hc : ∀ rest, compile (source_lines ++ rest) = Some (UnexpectedIndent 61))
    by (intros rest; reflexivity).
  split; [reflexivity |]. split; [exact Hc |].
  split; [| split]; intros; unfold run_in; now rewrite Hc.
Qed.


(** * Further properties of the store *)

(** [load_data] always returns; it may print its warning and does
    nothing else. *)
Lemma load_data_frame (w : world) :
  ∃ doc w', load_data w = (Ok doc, w') ∧ (w' = w ∨ w' = with_line warning w).
Proof.
  destruct w as [[[doc | d | raw] |] dk ck tk out]; eexists _, _;
    (split; [reflexivity |]); auto.
Qed.

Lemma same_store_refl (w : world) : same_store w w.
Proof. now repeat split. Qed.

Lemma same_store_load (w w' : world) :
  w' = w ∨ w' = with_line warning w → same_store w w'.
Proof. intros [-> | ->]; now repeat split. Qed.

(** X1. The reading operations only read: in every world, whether they
    return or raise, [get_month_transactions] and [summarize_month]
    leave [data.json], the device and the clock as they were. *)
Theorem reads_leave_store (y m : Z) (w : world) :
  same_store w (get_month_transactions y m w).2 ∧
  same_store w (summarize_month y m w).2.
Proof.
  destruct (load_data_frame w) as (doc & w' & Hload & Hw').
  assert (Hget : (get_month_transactions y m w).2 = w').
  { unfold get_month_transactions. rewrite (bind_ok _ _ _ _ _ Hload).
    unfold bind, lift, ret.
    destruct (getitem doc "transactions") as [v | e]; [| reflexivity].
    now destruct (iterate v). }
  split; [rewrite Hget; now apply same_store_load |].
  unfold summarize_month, bind at 1.
  destruct (get_month_transactions y m w) as [[txs | e] w1] eqn:Hrun;
    simpl in Hget; subst w1; [| now apply same_store_load].
  unfold bind, lift, ret.
  destruct (sum_amounts "income" txs (VInt 0)) as [inc | e]; [| now apply same_store_load].
  destruct (sum_amounts "expense" txs (VInt 0)) as [exp | e]; [| now apply same_store_load].
  destruct (py_sub inc exp); now apply same_store_load.
Qed.

(** X2. Recovery from an unreadable file: when [data.json] exists and
    does not parse, [load_data] returns the empty ledger, prints its
    warning once, and leaves the file as it is, so that the next
    [load_data] warns again. *)
Theorem unreadable_file_recovery (c : content) (w : world) :
  data_json w = Some c →
  unreadable c →
  load_data w = (Ok (VDict {[ "transactions" := VList [] ]}), with_line warning w) ∧
  load_data (with_line warning w) =
    (Ok (VDict {[ "transactions" := VList [] ]}), with_line warning (with_line warning w)).
Proof.
  intros Hf Hbad. destruct w as [f dk ck tk out]. simpl in Hf. subst f.
  destruct c as [doc | d | raw]; [now destruct (Hbad doc) | |]; split; reflexivity.
Qed.

Lemma unreadable_file_recovery_witness :
  load_data corrupt = (Ok (VDict {[ "transactions" := VList [] ]}), with_line warning corrupt) ∧
  load_data (with_line warning corrupt) =
    (Ok (VDict {[ "transactions" := VList [] ]}),
     with_line warning (with_line warning corrupt)).
Proof.
  apply (unreadable_file_recovery (Junk "{transactions: oops") corrupt).
  - reflexivity.
  - intros doc. discriminate.
Defined.

Section AppendSteps.
Context `{FloatParser}.

(** [add_transaction], its first two steps done. *)
Lemma add_transaction_steps (tx_type amount category note tx_date : value)
    (w w1 : world) (data : value) :
  load_data w = (Ok data, w1) →
  add_transaction tx_type amount category note tx_date w =
  let dw := resolved_date tx_date w1 in
  match py_float amount with
  | Raise e => (Raise e, dw.2)
  | Ok x =>
      let txn := txn_record tx_type x category note dw.1
                   (datetime_isoformat (clock dw.2 (ticks dw.2))) in
      match getitem data "transactions" with
      | Raise e => (Raise e, with_tick dw.2)
      | Ok rows =>
          match list_append rows txn with
          | Raise e => (Raise e, with_tick dw.2)
          | Ok rows' =>
              match mapping data with
              | Raise e => (Raise e, with_tick dw.2)
              | Ok d => save_data (<["transactions" := rows']> d) (with_tick dw.2)
              end
          end
      end
  end.
Proof.
  intros Hload. unfold add_transaction. rewrite (bind_ok _ _ _ _ _ Hload).
  assert (Hd : (match tx_date with
                | VNone => let* d0 := today in ret (VStr (date_isoformat d0))
                | _ => ret tx_date
                end) w1 = (Ok (resolved_date tx_date w1).1, (resolved_date tx_date w1).2))
    by (destruct tx_date; reflexivity).
  rewrite (bind_ok _ _ _ _ _ Hd). cbv zeta.
  destruct (py_float amount) as [x | e]; [| reflexivity].
  rewrite (bind_lift_ok _ _ _ _ eq_refl). unfold bind at 1, now.
  destruct (getitem data "transactions") as [rows | e]; [| reflexivity].
  rewrite (bind_lift_ok _ _ _ _ eq_refl).
  destruct (list_append rows _) as [rows' | e]; [| reflexivity].
  rewrite (bind_lift_ok _ _ _ _ eq_refl).
  destruct (mapping data) as [d | e]; reflexivity.
Qed.

Lemma resolved_date_store (tx_date : value) (w : world) :
  data_json (resolved_date tx_date w).2 = data_json w ∧
  disk (resolved_date tx_date w).2 = disk w.
Proof. now destruct tx_date. Qed.

(** No step before the write raises [OSError]. *)
Lemma py_float_no_oserror (v : value) : py_float v ≠ Raise OSError.
Proof.
  destruct v as [| b | n | f | s | items | d]; simpl; try discriminate.
  - unfold int_to_float. now destruct (binary_normalize prec emax n 0 false).
  - now destruct (float_of_str s).
Qed.

Lemma getitem_no_oserror (v : value) (k : string) : getitem v k ≠ Raise OSError.
Proof.
  destruct v as [| b | n | f | s | items | d]; simpl; try discriminate.
  now destruct (d !! k).
Qed.

Lemma list_append_no_oserror (v x : value) : list_append v x ≠ Raise OSError.
Proof. now destruct v. Qed.

Lemma mapping_no_oserror (v : value) : mapping v ≠ Raise OSError.
Proof. now destruct v. Qed.

(** X3. An append that fails for any reason but the device leaves
    [data.json] as it was; so does one that fails because the file
    cannot be opened.  An [OSError] comes from the device only. *)
Theorem append_failure_keeps_file
    (tx_type amount category note tx_date : value) (w w' : world) (e : exn) :
  add_transaction tx_type amount category note tx_date w = (Raise e, w') →
  (e = OSError → disk w ≠ Writable) ∧
  (e ≠ OSError ∨ disk w = OpenFails → data_json w' = data_json w).
Proof.
  destruct (load_data_frame w) as (data & w1 & Hload & Hw1).
  rewrite (add_transaction_steps _ _ _ _ _ _ _ _ Hload). cbv zeta.
  destruct (resolved_date_store tx_date w1) as [Hf Hd].
  assert (Hf1 : data_json w1 = data_json w) by (destruct Hw1 as [-> | ->]; reflexivity).
  assert (Hd1 : disk w1 = disk w) by (destruct Hw1 as [-> | ->]; reflexivity).
  set (w2 := (resolved_date tx_date w1).2) in *.
  assert (Hkeep : data_json (with_tick w2) = data_json w) by (simpl; congruence).
  destruct (py_float amount) as [x | e1] eqn:E1.
  2:{ intros [= <- <-]. split; [| intros _; congruence].
      intros ->. now destruct (py_float_no_oserror amount). }
  destruct (getitem data "transactions") as [rows | e1] eqn:E2.
  2:{ intros [= <- <-]. split; [| now intros _].
      intros ->. now destruct (getitem_no_oserror data "transactions"). }
  destruct (list_append rows _) as [rows' | e1] eqn:E3.
  2:{ intros [= <- <-]. split; [| now intros _].
      intros ->. now destruct (list_append_no_oserror _ _ E3). }
  destruct (mapping data) as [d | e1] eqn:E4.
  2:{ intros [= <- <-]. split; [| now intros _].
      intros ->. now destruct (mapping_no_oserror data). }
  assert (Hdisk : disk (with_tick w2) = disk w) by (simpl; congruence).
  destruct (disk w) eqn:Hdw.
  - rewrite (save_data_writable _ _ Hdisk). discriminate.
  - rewrite (save_data_open_fails _ _ Hdisk). intros [= <- <-].
    split; [discriminate | now intros _].
  - rewrite (save_data_write_fails _ _ Hdisk). intros [= <- <-].
    split; [discriminate | intros [Hne | Hdk]; [now destruct Hne | discriminate]].
Qed.

(** X4. When an append goes through: [add_transaction] returns normally
    exactly when the document [load_data] returns is a dict with a list
    under ["transactions"], [float] converts the amount and the device
    takes the write; the file then holds that document with the new
    record last in the list, every other row and key as before. *)
Theorem append_succeeds_iff
    (tx_type amount category note tx_date : value) (w w' : world) :
  add_transaction tx_type amount category note tx_date w = (Ok tt, w') ↔
  ∃ d rows x,
    (load_data w).1 = Ok (VDict d) ∧
    d !! "transactions" = Some (VList rows) ∧
    py_float amount = Ok x ∧
    disk w = Writable ∧
    w' = appended tx_type category note tx_date x d rows w.
Proof.
  destruct (load_data_frame w) as (data & w1 & Hload & Hw1).
  rewrite (add_transaction_steps _ _ _ _ _ _ _ _ Hload). cbv zeta.
  unfold appended. rewrite Hload. simpl fst. simpl snd.
  destruct (resolved_date_store tx_date w1) as [_ Hd].
  assert (Hd1 : disk w1 = disk w) by (destruct Hw1 as [-> | ->]; reflexivity).
  set (dw := resolved_date tx_date w1) in *.
  assert (Hdisk : disk (with_tick dw.2) = disk w) by (simpl; congruence).
  split.
  - destruct (py_float amount) as [x | e]; [| discriminate].
    destruct data as [| b | n | f | s | items | d]; try discriminate.
    simpl. destruct (d !! "transactions") as [[| b | n | f | s | rows | es] |] eqn:Hrows;
      try discriminate.
    simpl. destruct (disk w) eqn:Hdw.
    + rewrite (save_data_writable _ _ Hdisk). intros [= <-].
      now exists d, rows, x.
    + rewrite (save_data_open_fails _ _ Hdisk). discriminate.
    + rewrite (save_data_write_fails _ _ Hdisk). discriminate.
  - intros (d & rows & x & [= ->] & Hrows & -> & Hdw & ->).
    simpl. rewrite Hrows. simpl. rewrite Hdw in Hdisk.
    now rewrite (save_data_writable _ _ Hdisk).
Qed.

(** X5. Appending over an unreadable file: on a writable device the
    append goes through, and the file, whatever it held, is replaced by
    a ledger of the one new record. *)
Theorem append_replaces_unreadable_file
    (tx_type amount category note tx_date : value) (x : float)
    (c : content) (w : world) :
  data_json w = Some c →
  unreadable c →
  disk w = Writable →
  py_float amount = Ok x →
  ∃ w' date stamp,
    add_transaction tx_type amount category note tx_date w = (Ok tt, w') ∧
    data_json w' =
      Some (Text (VDict {[ "transactions" :=
         VList [txn_record tx_type x category note date stamp] ]})) ∧
    stdout w' = stdout w ++ [warning].
Proof.
  intros Hf Hbad Hdisk Hx.
  assert (Hload : load_data w = (Ok (VDict empty_ledger), with_line warning w)).
  { destruct w as [f dk ck tk out]. simpl in Hf. subst f.
    destruct c as [doc | d | raw]; [now destruct (Hbad doc) | |]; reflexivity. }
  rewrite (add_transaction_steps _ _ _ _ _ _ _ _ Hload). cbv zeta. rewrite Hx.
  set (dw := resolved_date tx_date (with_line warning w)).
  assert (Hdisk' : disk (with_tick dw.2) = Writable)
    by (unfold dw; destruct tx_date; exact Hdisk).
  change (getitem (VDict empty_ledger) "transactions") with (@Ok value (VList [])).
  cbn [list_append mapping app]. rewrite (save_data_writable _ _ Hdisk').
  eexists _, dw.1, _. split; [reflexivity |]. split.
  - simpl. unfold empty_ledger. now rewrite insert_singleton_eq.
  - unfold dw. now destruct tx_date.
Qed.

End AppendSteps.

Lemma append_failure_keeps_file_witness :
  (KeyError = OSError → disk (holding (VDict ∅)) ≠ Writable) ∧
  (KeyError ≠ OSError ∨ disk (holding (VDict ∅)) = OpenFails →
   data_json (with_tick (holding (VDict ∅))) = data_json (holding (VDict ∅))).
Proof.
  apply (@append_failure_keeps_file digits_parser (VStr "income") (VInt 5000000)
           (VStr "Gaji") (VStr "") (VStr "2024-03-01") (holding (VDict ∅))
           (with_tick (holding (VDict ∅))) KeyError).
  reflexivity.
Defined.

Lemma append_replaces_unreadable_file_witness :
  ∃ w' date stamp,
    @add_transaction digits_parser (VStr "income") (VStr "150000") (VStr "Gaji")
      (VStr "") VNone corrupt = (Ok tt, w') ∧
    data_json w' =
      Some (Text (VDict {[ "transactions" :=
         VList [txn_record (VStr "income") 150000 (VStr "Gaji") (VStr "") date stamp] ]})) ∧
    stdout w' = stdout corrupt ++ [warning].
Proof.
  apply (@append_replaces_unreadable_file digits_parser (VStr "income") (VStr "150000")
           (VStr "Gaji") (VStr "") VNone 150000 (Junk "{transactions: oops") corrupt).
  - reflexivity.
  - intros doc. discriminate.
  - reflexivity.
  - reflexivity.
Defined.

Section History.
Context `{FloatParser}.

(** X6. Appends keep the history: appending a sequence of entries to a
    ledger that already holds rows leaves those rows in place and in
    order, puts one record per entry after them, and keeps every other
    key of the document. *)
Theorem appends_keep_history (es : list entry) (w : world)
    (d : gmap string value) (old : list value) :
  data_json w = Some (Text (VDict d)) →
  d !! "transactions" = Some (VList old) →
  disk w = Writable →
  ∃ rows d' w',
    (append_all es >> load_data) w = (Ok (VDict d'), w') ∧
    d' !! "transactions" = Some (VList (old ++ rows)) ∧
    Forall2 stored es rows ∧
    ∀ k, k ≠ "transactions" → d' !! k = d !! k.
Proof.
  intros Hf Hold Hdisk.
  destruct (append_all_stores es w d old) as (rows & w' & Hrun & Hl & _ & Hall);
    [now right | exact Hold | exact Hdisk |].
  exists rows, (<["transactions" := VList (old ++ rows)]> d), w'.
  rewrite (bind_ok _ _ _ _ _ Hrun). split; [now apply load_data_ledger |].
  split; [apply lookup_insert_eq |]. split; [exact Hall |].
  intros k Hk. now apply lookup_insert_ne.
Qed.

End History.

Lemma appends_keep_history_witness :
  ∃ rows d' w',
    (@append_all digits_parser
       [ {| e_type := "expense"; e_amount := 300000; e_category := "Makan";
            e_note := "Makan dan belanja"; e_date := "2024-03-05" |} ] >> load_data)
      (holding (VDict tagged_ledger)) = (Ok (VDict d'), w') ∧
    d' !! "transactions" = Some (VList ([salary] ++ rows)) ∧
    Forall2 stored
      [ {| e_type := "expense"; e_amount := 300000; e_category := "Makan";
           e_note := "Makan dan belanja"; e_date := "2024-03-05" |} ] rows ∧
    ∀ k, k ≠ "transactions" → d' !! k = tagged_ledger !! k.
Proof.
  apply (@appends_keep_history digits_parser _ (holding (VDict tagged_ledger))
           tagged_ledger [salary]); reflexivity.
Defined.

(** * Further properties of the aggregator *)

(** What [get_month_transactions] does is settled by the rows the file
    yields, the same for every month. *)
Lemma get_month_transactions_shape (w : world) :
  (∃ rows w', ∀ y m, get_month_transactions y m w = (Ok (month_loop y m rows []), w')) ∨
  (∃ e w', ∀ y m, get_month_transactions y m w = (Raise e, w')).
Proof.
  destruct (load_data_frame w) as (data & w' & Hload & _).
  unfold get_month_transactions.
  destruct (getitem data "transactions") as [v | e] eqn:Hv.
  - destruct (iterate v) as [rows | e] eqn:Hrows.
    + left. exists rows, w'. intros y m.
      now rewrite (bind_ok _ _ _ _ _ Hload), (bind_lift_ok _ _ _ _ Hv),
        (bind_lift_ok _ _ _ _ Hrows).
    + right. exists e, w'. intros y m.
      now rewrite (bind_ok _ _ _ _ _ Hload), (bind_lift_ok _ _ _ _ Hv),
        (bind_lift_raise _ _ _ _ Hrows).
  - right. exists e, w'. intros y m.
    now rewrite (bind_ok _ _ _ _ _ Hload), (bind_lift_raise _ _ _ _ Hv).
Qed.

(** A selected row has a date, and the date is in the month. *)
Lemma month_loop_dated (y m : Z) (rows : list value) (t : value) :
  t ∈ month_loop y m rows [] →
  ∃ d, row_date t = Ok d ∧ year d = y ∧ month d = m.
Proof.
  rewrite month_loop_filter, app_nil_l. intros Hin.
  apply list_elem_of_In, filter_In in Hin as [_ Hb].
  unfold in_bucket in Hb. rewrite <- row_date_effective in Hb.
  destruct (row_date t) as [d | e]; [| discriminate].
  exists d. apply andb_true_iff in Hb as [Hy Hm]. split; [reflexivity | lia].
Qed.

(** X7. No record is counted in two months: a row that
    [get_month_transactions] returns for one (year, month) is returned
    for no other, and the date the code resolves for it lies in that
    month. *)
Theorem months_are_disjoint (w w1 w2 : world) (y m y' m' : Z)
    (txs txs' : list value) (t : value) :
  get_month_transactions y m w = (Ok txs, w1) →
  get_month_transactions y' m' w = (Ok txs', w2) →
  t ∈ txs →
  t ∈ txs' →
  y = y' ∧ m = m' ∧ ∃ d, row_date t = Ok d ∧ year d = y ∧ month d = m.
Proof.
  intros Hrun Hrun' Hin Hin'.
  destruct (get_month_transactions_shape w) as [(rows & w' & Hall) | (e & w' & Hall)].
  - rewrite Hall in Hrun, Hrun'.
    injection Hrun as <- _. injection Hrun' as <- _.
    destruct (month_loop_dated _ _ _ _ Hin) as (d & Hd & Hy & Hm).
    destruct (month_loop_dated _ _ _ _ Hin') as (d' & Hd' & Hy' & Hm').
    rewrite Hd in Hd'. injection Hd' as <-.
    repeat split; try congruence. now exists d.
  - rewrite Hall in Hrun. discriminate.
Qed.

Lemma months_are_disjoint_witness :
  2024 = 2024 ∧ 3 = 3 ∧
  ∃ d, row_date salary = Ok d ∧ year d = 2024 ∧ month d = 3.
Proof.
  apply (months_are_disjoint (one_record Writable) (one_record Writable)
           (one_record Writable) 2024 3 2024 3 [salary] [salary] salary).
  - reflexivity.
  - reflexivity.
  - apply list_elem_of_In. simpl. tauto.
  - apply list_elem_of_In. simpl. tauto.
Defined.

(** The summary is computed from the selected rows alone. *)
Lemma summarize_month_of_rows (y m : Z) (w w' : world) (rows : list value) :
  (∀ y m, get_month_transactions y m w = (Ok (month_loop y m rows []), w')) →
  (summarize_month y m w).1 =
  let txs := month_loop y m rows [] in
  let? total_income := sum_amounts "income" txs (VInt 0) in
  let? total_expense := sum_amounts "expense" txs (VInt 0) in
  let? balance := py_sub total_income total_expense in
  Ok (VDict {[ "income" := total_income;
               "expense" := total_expense;
               "balance" := balance;
               "count" := VInt (Z.of_nat (length txs)) ]}).
Proof.
  intros Hall. unfold summarize_month. rewrite (bind_ok _ _ _ _ _ (Hall y m)).
  cbv zeta. unfold bind, lift, ret.
  destruct (sum_amounts "income" _ _) as [inc | e]; [| reflexivity].
  destruct (sum_amounts "expense" _ _) as [exp | e]; [| reflexivity].
  simpl. now destruct (py_sub inc exp).
Qed.

(** X8. Only the month's rows matter: two ledgers whose rows of
    (year, month) are the same give the same summary for that month, or
    the same error, whatever else they hold; rows of other months and
    rows without a date, however malformed, have no influence. *)
Theorem summary_of_month_rows_only (y m : Z) (w1 w1' w2 w2' : world)
    (data1 data2 : value) (rows1 rows2 : list value) :
  load_data w1 = (Ok data1, w1') →
  getitem data1 "transactions" = Ok (VList rows1) →
  load_data w2 = (Ok data2, w2') →
  getitem data2 "transactions" = Ok (VList rows2) →
  month_loop y m rows1 [] = month_loop y m rows2 [] →
  (summarize_month y m w1).1 = (summarize_month y m w2).1.
Proof.
  intros Hl1 Hr1 Hl2 Hr2 Hsame.
  assert (H1 : ∀ y m, get_month_transactions y m w1 = (Ok (month_loop y m rows1 []), w1')).
  { intros y0 m0. unfold get_month_transactions.
    now rewrite (bind_ok _ _ _ _ _ Hl1), (bind_lift_ok _ _ _ _ Hr1). }
  assert (H2 : ∀ y m, get_month_transactions y m w2 = (Ok (month_loop y m rows2 []), w2')).
  { intros y0 m0. unfold get_month_transactions.
    now rewrite (bind_ok _ _ _ _ _ Hl2), (bind_lift_ok _ _ _ _ Hr2). }
  rewrite (summarize_month_of_rows y m _ _ _ H1), (summarize_month_of_rows y m _ _ _ H2).
  cbv zeta. now rewrite Hsame.
Qed.

Lemma summary_of_month_rows_only_witness :
  (summarize_month 2024 3 (holding (VDict {[ "transactions" := VList mixed_rows ]}))).1 =
  (summarize_month 2024 3 (holding (VDict {[ "transactions" := VList [salary; rent] ]}))).1.
Proof.
  apply (summary_of_month_rows_only 2024 3
           (holding (VDict {[ "transactions" := VList mixed_rows ]}))
           (holding (VDict {[ "transactions" := VList mixed_rows ]}))
           (holding (VDict {[ "transactions" := VList [salary; rent] ]}))
           (holding (VDict {[ "transactions" := VList [salary; rent] ]}))
           (VDict {[ "transactions" := VList mixed_rows ]})
           (VDict {[ "transactions" := VList [salary; rent] ]})
           mixed_rows [salary; rent]); reflexivity.
Defined.

(** A running total is a number, and adding anything else to it fails. *)
Lemma py_add_number (acc a r : value) :
  is_number acc = true → py_add acc a = Ok r → is_number r = true ∧ is_number a = true.
Proof.
  unfold py_add, is_number.
  destruct (as_number acc) as [x |] eqn:Hacc; [| discriminate]. intros _.
  destruct (as_number a) as [z |] eqn:Ha.
  - destruct x as [n | f], z as [n' | f']; simpl;
      try destruct (int_to_float _); simpl; intros [= <-]; auto.
  - destruct acc; try discriminate; destruct a; discriminate.
Qed.

Lemma sum_amounts_number (kind : string) (txs : list value) :
  ∀ acc r, is_number acc = true → sum_amounts kind txs acc = Ok r → is_number r = true.
Proof.
  induction txs as [| h txs IH]; intros acc r Hacc; simpl.
  - now intros [= <-].
  - destruct (getitem h "type") as [ty | e]; [| discriminate]. simpl.
    destruct (eq_str ty kind); [| now apply IH].
    destruct (getitem h "amount") as [a | e]; [| discriminate]. simpl.
    destruct (py_add acc a) as [acc' | e] eqn:Hadd; [| discriminate]. simpl.
    apply IH. now destruct (py_add_number _ _ _ Hacc Hadd).
Qed.

Lemma sum_amounts_breaks (kind : string) (t : value) (txs : list value) :
  t ∈ txs →
  breaks_sum kind t = true →
  ∀ acc, is_number acc = true → ∃ e, sum_amounts kind txs acc = Raise e.
Proof.
  intros Hin Hbad. induction Hin as [t txs | t h txs _ IH]; intros acc Hacc; simpl.
  - unfold breaks_sum in Hbad.
    destruct (getitem t "type") as [ty | e]; [| now exists e]. simpl.
    apply andb_true_iff in Hbad as [-> Hbad].
    destruct (getitem t "amount") as [a | e]; [| now exists e]. simpl.
    destruct (py_add acc a) as [acc' | e] eqn:Hadd; [| now exists e].
    destruct (py_add_number _ _ _ Hacc Hadd) as [_ Ha]. now rewrite Ha in Hbad.
  - destruct (getitem h "type") as [ty | e]; [| now exists e]. simpl.
    destruct (eq_str ty kind); [| now apply IH].
    destruct (getitem h "amount") as [a | e]; [| now exists e]. simpl.
    destruct (py_add acc a) as [acc' | e] eqn:Hadd; [| now exists e]. simpl.
    apply (IH Hbad). now destruct (py_add_number _ _ _ Hacc Hadd).
Qed.

(** X9. One unusable record spoils its month: if a row of
    (year, month) has no ["type"], or is an income or an expense whose
    amount is missing or is not a number, [summarize_month] raises for
    that month, whatever the other rows are. *)
Theorem unusable_row_breaks_summary (y m : Z) (w w' : world) (data : value)
    (rows : list value) (t : value) :
  load_data w = (Ok data, w') →
  getitem data "transactions" = Ok (VList rows) →
  t ∈ month_loop y m rows [] →
  breaks_sum "income" t = true ∨ breaks_sum "expense" t = true →
  ∃ e, summarize_month y m w = (Raise e, w').
Proof.
  intros Hload Hrows Hin Hbad.
  assert (Hget : get_month_transactions y m w = (Ok (month_loop y m rows []), w')).
  { unfold get_month_transactions.
    now rewrite (bind_ok _ _ _ _ _ Hload), (bind_lift_ok _ _ _ _ Hrows). }
  unfold summarize_month. rewrite (bind_ok _ _ _ _ _ Hget).
  destruct (sum_amounts "income" (month_loop y m rows []) (VInt 0)) as [inc | e] eqn:Hinc.
  - destruct Hbad as [Hbad | Hbad].
    + destruct (sum_amounts_breaks _ _ _ Hin Hbad (VInt 0) eq_refl) as [e He].
      congruence.
    + destruct (sum_amounts_breaks _ _ _ Hin Hbad (VInt 0) eq_refl) as [e He].
      exists e. now rewrite (bind_lift_ok _ _ _ _ eq_refl), (bind_lift_raise _ _ _ _ He).
  - exists e. now rewrite (bind_lift_raise _ _ _ _ eq_refl).
Qed.

Lemma unusable_row_breaks_summary_witness :
  ∃ e,
    summarize_month 2024 3
      (holding (VDict {[ "transactions" := VList [salary; text_amount] ]})) =
    (Raise e, holding (VDict {[ "transactions" := VList [salary; text_amount] ]})).
Proof.
  apply (unusable_row_breaks_summary 2024 3
           (holding (VDict {[ "transactions" := VList [salary; text_amount] ]}))
           (holding (VDict {[ "transactions" := VList [salary; text_amount] ]}))
           (VDict {[ "transactions" := VList [salary; text_amount] ]})
           [salary; text_amount] text_amount).
  - reflexivity.
  - reflexivity.
  - apply list_elem_of_In. vm_compute. tauto.
  - right. reflexivity.
Defined.

(** * Dates written and read back *)

Lemma digit_char_cases (n : Z) :
  ∃ r, 0 <= r < 10 ∧ n mod 10 = r ∧
       digit_char n = ascii_of_N (Z.to_N (48 + r)).
Proof.
  exists (n mod 10). split; [apply Z.mod_pos_bound; lia | now split].
Qed.

Ltac digit_cases n :=
  let r := fresh "r" in
  let Hr := fresh "Hr" in
  let Hm := fresh "Hm" in
  let Hc := fresh "Hc" in
  destruct (digit_char_cases n) as (r & Hr & Hm & Hc);
  rewrite Hc; clear Hc;
  assert (r = 0 ∨ r = 1 ∨ r = 2 ∨ r = 3 ∨ r = 4 ∨
          r = 5 ∨ r = 6 ∨ r = 7 ∨ r = 8 ∨ r = 9) as Hc by lia;
  clear Hr.

Lemma digit_digit_char (n : Z) : digit (digit_char n) = Some (n mod 10).
Proof.
  digit_cases n.
  destruct Hc as [-> | [-> | [-> | [-> | [-> | [-> | [-> | [-> | [-> | ->]]]]]]]]];
    rewrite Hm; reflexivity.
Qed.

Lemma digit_char_no_sign (n : Z) :
  Ascii.eqb (digit_char n) "+" || Ascii.eqb (digit_char n) "-" = false.
Proof.
  digit_cases n.
  destruct Hc as [-> | [-> | [-> | [-> | [-> | [-> | [-> | [-> | [-> | ->]]]]]]]]];
    reflexivity.
Qed.

Lemma two_digits (n : Z) :
  0 <= n < 100 →
  digits_from 0 (String (digit_char (n / 10)) (String (digit_char n) EmptyString)) = Some n.
Proof.
  intros Hn. cbn [digits_from]. rewrite !digit_digit_char. f_equal.
  Z.div_mod_to_equations. lia.
Qed.

Lemma four_digits (n : Z) :
  0 <= n < 10000 →
  digits_from 0
    (String (digit_char (n / 10 / 10 / 10)) (String (digit_char (n / 10 / 10))
       (String (digit_char (n / 10)) (String (digit_char n) EmptyString)))) = Some n.
Proof.
  intros Hn. cbn [digits_from]. rewrite !digit_digit_char. f_equal.
  Z.div_mod_to_equations. lia.
Qed.

Lemma six_digits (n : Z) :
  0 <= n < 1000000 →
  digits_from 0
    (String (digit_char (n / 10 / 10 / 10 / 10 / 10))
       (String (digit_char (n / 10 / 10 / 10 / 10))
          (String (digit_char (n / 10 / 10 / 10)) (String (digit_char (n / 10 / 10))
             (String (digit_char (n / 10)) (String (digit_char n) EmptyString)))))) = Some n.
Proof.
  intros Hn. cbn [digits_from]. rewrite !digit_digit_char. f_equal.
  Z.div_mod_to_equations. lia.
Qed.

Lemma days_in_month_bound (y m : Z) : days_in_month y m <= 31.
Proof.
  unfold days_in_month. repeat match goal with |- context [if ?b then _ else _] => destruct b end; lia.
Qed.

Lemma valid_date_bounds (d : date) :
  valid_date d = true →
  0 <= year d < 10000 ∧ 0 <= month d < 100 ∧ 0 <= day d < 100.
Proof.
  unfold valid_date. rewrite !andb_true_iff, !Z.leb_le.
  pose proof (days_in_month_bound (year d) (month d)). lia.
Qed.

Lemma date_isoformat_parses (d : date) :
  valid_date d = true → fromisoformat_str (date_isoformat d) = Some d.
Proof.
  intros Hv. destruct (valid_date_bounds d Hv) as (Hy & Hm & Hd).
  unfold fromisoformat_str, date_isoformat.
  cbn [padded]. cbn [substring String.length Nat.eqb orb].
  unfold parse_isoformat_date, field, char_at.
  cbn [substring String.length Nat.eqb andb negb String.get].
  rewrite (four_digits _ Hy), (two_digits _ Hm), (two_digits _ Hd).
  cbn [Ascii.eqb Bool.eqb andb]. 
  destruct d as [y m dd]. simpl in *. now rewrite Hv.
Qed.

Lemma valid_instant_bounds (t : instant) :
  valid_instant t = true →
  valid_date (on t) = true ∧ 0 <= hour t < 24 ∧ 0 <= minute t < 60 ∧
  0 <= second t < 60 ∧ 0 <= microsecond t < 1000000.
Proof.
  unfold valid_instant. rewrite !andb_true_iff, !Z.leb_le, !Z.ltb_lt. tauto.
Qed.

Lemma separator_width_ascii (a b c d e f g h i j sep : ascii) (rest : string) :
  (N_of_ascii sep <? 128)%N = true →
  separator_width
    (String a (String b (String c (String d (String e (String f (String g
      (String h (String i (String j (String sep rest))))))))))) = 1%nat.
Proof. intros Hsep. unfold separator_width. cbn [String.get]. now rewrite Hsep. Qed.

Lemma datetime_isoformat_parses (t : instant) :
  valid_instant t = true → fromisoformat_str (datetime_isoformat t) = Some (on t).
Proof.
  intros Hv. destruct (valid_instant_bounds t Hv) as (Hdate & Hh & Hmi & Hs & Hus).
  destruct (valid_date_bounds _ Hdate) as (Hy & Hm & Hd).
  assert (Hh' : 0 <= hour t < 100) by lia.
  assert (Hmi' : 0 <= minute t < 100) by lia.
  assert (Hs' : 0 <= second t < 100) by lia.
  unfold fromisoformat_str, datetime_isoformat, date_isoformat.
  destruct (microsecond t =? 0) eqn:Hz;
    cbn [padded]; cbv [String.append];
    rewrite separator_width_ascii by reflexivity; cbv zeta; cbn [Nat.add];
    cbn [substring String.length Nat.eqb orb Nat.sub];
    unfold parse_isoformat_date, field, char_at;
    cbn [substring String.length Nat.eqb andb negb String.get];
    rewrite (four_digits _ Hy), (two_digits _ Hm), (two_digits _ Hd);
    cbn [Ascii.eqb Bool.eqb andb];
    unfold parse_isoformat_time; cbn [offset_pos];
    rewrite !digit_char_no_sign; cbn [Ascii.eqb Bool.eqb orb];
    unfold parse_hh_mm_ss_ff, field, char_at;
    cbn [substring String.length Nat.eqb andb negb String.get];
    rewrite (two_digits _ Hh'), (two_digits _ Hmi'),
      (two_digits _ Hs'), ?(six_digits _ Hus);
    cbn [Ascii.eqb Bool.eqb andb valid_time].
  all: replace {| year := year (on t); month := month (on t); day := day (on t) |}
         with (on t) by now destruct (on t).
  all: rewrite Hdate, !(proj2 (Z.ltb_lt _ _)) by lia; reflexivity.
Qed.

(** * Appending, then reading the month *)

Lemma txn_record_date (tx_type : value) (x : float) (category note tx_date : value)
    (stamp : string) :
  getitem (txn_record tx_type x category note tx_date stamp) "date" = Ok tx_date.
Proof. reflexivity. Qed.

Lemma txn_record_created_at (tx_type : value) (x : float) (category note tx_date : value)
    (stamp : string) :
  dict_get (txn_record tx_type x category note tx_date stamp) "created_at" =
  Ok (VStr stamp).
Proof. reflexivity. Qed.

(** The month's rows of a ledger with one more row at its end. *)
Lemma month_loop_snoc (rows : list value) (row : value) (d : date) :
  row_date row = Ok d →
  month_loop (year d) (month d) (rows ++ [row]) [] =
  month_loop (year d) (month d) rows [] ++ [row].
Proof.
  intros Hd. rewrite !month_loop_filter, !app_nil_l, List.filter_app. f_equal.
  simpl. unfold in_bucket. rewrite <- row_date_effective, Hd.
  now rewrite !Z.eqb_refl.
Qed.

Section AppendThenRead.
Context `{FloatParser}.

(** An append on a ledger, the date left to [resolved_date]. *)
Lemma add_transaction_resolved (tx_type amount category note tx_date : value)
    (x : float) (w : world) (d : gmap string value) (rows : list value) :
  ledger_on_disk w d →
  d !! "transactions" = Some (VList rows) →
  disk w = Writable →
  py_float amount = Ok x →
  add_transaction tx_type amount category note tx_date w =
  (Ok tt, appended tx_type category note tx_date x d rows w).
Proof.
  intros Hl Hrows Hdisk Hx. pose proof (load_data_ledger _ _ Hl) as Hload.
  rewrite (add_transaction_steps _ _ _ _ _ _ _ _ Hload). cbv zeta.
  unfold appended. rewrite Hload, Hx. simpl fst. simpl snd.
  cbn [getitem]. rewrite Hrows. cbn [list_append mapping].
  apply save_data_writable. now destruct tx_date.
Qed.

Lemma month_after_append (tx_type category note tx_date : value) (x : float)
    (w : world) (d : gmap string value) (rows : list value) (y m : Z) :
  let dw := resolved_date tx_date (load_data w).2 in
  let row := txn_record tx_type x category note dw.1
               (datetime_isoformat (clock dw.2 (ticks dw.2))) in
  get_month_transactions y m (appended tx_type category note tx_date x d rows w) =
  (Ok (month_loop y m (rows ++ [row]) []),
   appended tx_type category note tx_date x d rows w).
Proof.
  intros dw row. unfold get_month_transactions.
  erewrite bind_ok by (apply load_data_text; reflexivity).
  cbn [getitem]. rewrite lookup_insert_eq. reflexivity.
Qed.

(** X10. A transaction added without a date is counted in the current
    month: when the clock shows a real date, [add_transaction] with the
    default date stores that day, and [get_month_transactions] for the
    day's year and month then returns the month's earlier rows followed
    by the new record. *)
Theorem default_date_in_current_month
    (tx_type amount category note : value) (x : float)
    (w : world) (d : gmap string value) (rows : list value) :
  ledger_on_disk w d →
  d !! "transactions" = Some (VList rows) →
  disk w = Writable →
  py_float amount = Ok x →
  valid_date (on (clock w (ticks w))) = true →
  let today := on (clock w (ticks w)) in
  ∃ row w',
    (add_transaction tx_type amount category note VNone >>
     get_month_transactions (year today) (month today)) w =
      (Ok (month_loop (year today) (month today) rows [] ++ [row]), w') ∧
    getitem row "date" = Ok (VStr (date_isoformat today)).
Proof.
  intros Hl Hrows Hdisk Hx Hclock today.
  rewrite (bind_ok _ _ _ _ _ (add_transaction_resolved _ _ _ _ VNone _ _ _ _ Hl Hrows Hdisk Hx)).
  rewrite month_after_append. cbv zeta.
  rewrite (load_data_ledger _ _ Hl). cbn [snd fst resolved_date]. fold today.
  eexists _, _. split; [| apply txn_record_date].
  f_equal. f_equal. apply (month_loop_snoc _ _ today).
  unfold row_date. rewrite txn_record_date. cbn [result_bind fromisoformat].
  unfold today. now rewrite (date_isoformat_parses _ Hclock).
Qed.

(** X11. A date the program cannot read is stored as given and the
    record counts where it was created: [add_transaction] does not check
    the date; when [fromisoformat] refuses it and the clock shows a real
    date and time, [get_month_transactions] resolves the record through
    its [created_at] and returns it for the year and month of the
    append.  (A date of [None] is the default, not a date given.) *)
Theorem unread_date_counts_at_creation
    (tx_type amount category note tx_date : value) (x : float) (e : exn)
    (w : world) (d : gmap string value) (rows : list value) :
  ledger_on_disk w d →
  d !! "transactions" = Some (VList rows) →
  disk w = Writable →
  py_float amount = Ok x →
  tx_date ≠ VNone →
  fromisoformat tx_date = Raise e →
  valid_instant (clock w (ticks w)) = true →
  let created := on (clock w (ticks w)) in
  ∃ row w',
    (add_transaction tx_type amount category note tx_date >>
     get_month_transactions (year created) (month created)) w =
      (Ok (month_loop (year created) (month created) rows [] ++ [row]), w') ∧
    getitem row "date" = Ok tx_date.
Proof.
  intros Hl Hrows Hdisk Hx Hdate Hbad Hclock created.
  rewrite (bind_ok _ _ _ _ _
             (add_transaction_resolved _ _ _ _ tx_date _ _ _ _ Hl Hrows Hdisk Hx)).
  rewrite month_after_append. cbv zeta.
  rewrite (load_data_ledger _ _ Hl). cbn [snd].
  assert (Hres : resolved_date tx_date w = (tx_date, w)) by now destruct tx_date.
  rewrite Hres. cbn [fst snd]. fold created.
  eexists _, _. split; [| apply txn_record_date].
  f_equal. f_equal. apply (month_loop_snoc _ _ created).
  unfold row_date. rewrite txn_record_date. cbn [result_bind]. rewrite Hbad.
  rewrite txn_record_created_at. cbn [result_bind fromisoformat].
  unfold created. now rewrite (datetime_isoformat_parses _ Hclock).
Qed.

End AppendThenRead.

Lemma default_date_in_current_month_witness :
  ∃ row w',
    (@add_transaction digits_parser (VStr "expense") (VStr "50000") (VStr "Makan")
       (VStr "") VNone >> get_month_transactions 2024 3) (one_record Writable) =
      (Ok (month_loop 2024 3 [salary] [] ++ [row]), w') ∧
    getitem row "date" = Ok (VStr "2024-03-07").
Proof.
  apply (@default_date_in_current_month digits_parser (VStr "expense") (VStr "50000")
           (VStr "Makan") (VStr "") 50000 (one_record Writable)
           {[ "transactions" := VList [salary] ]} [salary]).
  - now right.
  - reflexivity.
  - reflexivity.
  - reflexivity.
  - reflexivity.
Defined.

Lemma unread_date_counts_at_creation_witness :
  ∃ row w',
    (@add_transaction digits_parser (VStr "expense") (VStr "50000") (VStr "Makan")
       (VStr "") unreadable_date >> get_month_transactions 2024 3) (one_record Writable) =
      (Ok (month_loop 2024 3 [salary] [] ++ [row]), w') ∧
    getitem row "date" = Ok unreadable_date.
Proof.
  apply (@unread_date_counts_at_creation digits_parser (VStr "expense") (VStr "50000")
           (VStr "Makan") (VStr "") unreadable_date 50000 ValueError (one_record Writable)
           {[ "transactions" := VList [salary] ]} [salary]).
  - now right.
  - reflexivity.
  - reflexivity.
  - reflexivity.
  - discriminate.
  - reflexivity.
  - reflexivity.
Defined.

(** * The console operations *)

Lemma with_lines_snoc (lines : list string) (l : string) (w : world) :
  with_lines (lines ++ [l]) w = with_line l (with_lines lines w).
Proof. unfold with_lines. now rewrite fold_left_app. Qed.

Lemma with_lines_cons (lines : list string) (l : string) (w : world) :
  with_lines (l :: lines) w = with_lines lines (with_line l w).
Proof. reflexivity. Qed.

Section Listing.
Context `{Formatter}.

Lemma transaction_line_kept (i : Z) (t : value) :
  kept_row t → ∃ l, transaction_line i t = Ok l.
Proof.
  intros (r & dt & k & x & -> & Hdate & Htype & Hamount).
  unfold transaction_line. cbn [getitem dict_get_or]. rewrite Hdate, Htype, Hamount.
  eexists. reflexivity.
Qed.

Lemma transaction_line_undated (i : Z) (r : gmap string value) :
  r !! "date" = None → transaction_line i (VDict r) = Raise KeyError.
Proof. intros Hdate. unfold transaction_line. cbn [getitem]. now rewrite Hdate. Qed.

Lemma list_loop_kept (rows : list value) :
  Forall kept_row rows →
  ∀ i w, ∃ lines,
    list_loop i rows w = (Ok tt, with_lines lines w) ∧ length lines = length rows.
Proof.
  induction 1 as [| t rows Ht _ IH]; intros i w.
  - now exists [].
  - destruct (transaction_line_kept i t Ht) as [l Hl].
    destruct (IH (i + 1) (with_line l w)) as (lines & Hrun & Hlen).
    exists (l :: lines). cbn [list_loop].
    rewrite (bind_lift_ok _ _ _ _ Hl). unfold bind at 1, print.
    rewrite Hrun. split; [reflexivity | simpl; now rewrite Hlen].
Qed.

Lemma list_loop_stops (good rest : list value) (bad : value) (e : exn) :
  Forall kept_row good →
  ∀ i w,
    transaction_line (i + Z.of_nat (length good)) bad = Raise e →
    ∃ lines,
      list_loop i (good ++ bad :: rest) w = (Raise e, with_lines lines w) ∧
      length lines = length good.
Proof.
  induction 1 as [| t good Ht _ IH]; intros i w Hbad.
  - exists []. cbn [app list_loop]. rewrite Z.add_0_r in Hbad.
    now rewrite (bind_lift_raise _ _ _ _ Hbad).
  - destruct (transaction_line_kept i t Ht) as [l Hl].
    destruct (IH (i + 1) (with_line l w)) as (lines & Hrun & Hlen).
    { rewrite <- Hbad. f_equal. cbn [length]. lia. }
    exists (l :: lines). cbn [app list_loop].
    rewrite (bind_lift_ok _ _ _ _ Hl). unfold bind at 1, print.
    rewrite Hrun. split; [reflexivity | simpl; now rewrite Hlen].
Qed.

(** X12. Listing what the program wrote: on a list of rows that each
    have a date, a string type and a float amount, as [add_transaction]
    writes them, [list_transactions] never raises; it prints one line
    per row, or the one line [Tidak ada transaksi.] when there is no
    row, and changes nothing but the console. *)
Theorem listing_kept_rows (rows : list value) (w : world) :
  Forall kept_row rows →
  ∃ lines,
    list_transactions (VList rows) w = (Ok tt, with_lines lines w) ∧
    ((rows = [] ∧ lines = ["Tidak ada transaksi."]) ∨
     (rows ≠ [] ∧ length lines = length rows)).
Proof.
  intros Hrows. destruct rows as [| t rows].
  - exists ["Tidak ada transaksi."]. split; [reflexivity | now left].
  - destruct (list_loop_kept _ Hrows 1 w) as (lines & Hrun & Hlen).
    exists lines. split; [| right; now split].
    unfold list_transactions. cbn [truthy negb iterate].
    now rewrite (bind_lift_ok _ _ _ _ eq_refl).
Qed.

(** X13. Listing stops at a row without a date: a record with no
    ["date"], which [get_month_transactions] still accepts through its
    [created_at], makes [list_transactions] raise [KeyError]; the rows
    before it have been printed by then, the rows after it are not. *)
Theorem listing_stops_at_undated_row
    (good rest : list value) (r : gmap string value) (w : world) :
  Forall kept_row good →
  r !! "date" = None →
  ∃ lines,
    list_transactions (VList (good ++ VDict r :: rest)) w =
      (Raise KeyError, with_lines lines w) ∧
    length lines = length good.
Proof.
  intros Hgood Hdate.
  destruct (list_loop_stops good rest (VDict r) KeyError Hgood 1 w) as (lines & Hrun & Hlen);
    [now apply transaction_line_undated |].
  exists lines. split; [| exact Hlen].
  unfold list_transactions.
  assert (Ht : truthy (VList (good ++ VDict r :: rest)) = true) by now destruct good.
  rewrite Ht. cbn [negb iterate]. now rewrite (bind_lift_ok _ _ _ _ eq_refl).
Qed.

End Listing.

Lemma salary_kept : kept_row salary.
Proof. eexists _, _, _, _. repeat split; reflexivity. Qed.

Lemma listing_kept_rows_witness :
  ∃ lines,
    @list_transactions plain_formatter (VList [salary]) fresh =
      (Ok tt, with_lines lines fresh) ∧
    (([salary] = [] ∧ lines = ["Tidak ada transaksi."]) ∨
     ([salary] ≠ [] ∧ length lines = length [salary])).
Proof.
  apply (@listing_kept_rows plain_formatter [salary] fresh).
  constructor; [exact salary_kept | constructor].
Defined.

Lemma listing_stops_at_undated_row_witness :
  ∃ lines,
    @list_transactions plain_formatter (VList ([salary] ++ VDict undated :: [rent])) fresh =
      (Raise KeyError, with_lines lines fresh) ∧
    length lines = length [salary].
Proof.
  apply (@listing_stops_at_undated_row plain_formatter [salary] [rent] undated fresh).
  - constructor; [exact salary_kept | constructor].
  - reflexivity.
Defined.

Lemma kept_row_month (y m : Z) (rows : list value) :
  Forall kept_row rows → Forall kept_row (month_loop y m rows []).
Proof.
  rewrite month_loop_filter, app_nil_l, !List.Forall_forall.
  intros Hall t Hin. apply filter_In in Hin as [Hin _]. now apply Hall.
Qed.

Lemma sum_amounts_kept (kind : string) (txs : list value) :
  Forall kept_row txs →
  ∀ acc, running_total acc →
    ∃ total, sum_amounts kind txs acc = Ok total ∧ running_total total.
Proof.
  induction 1 as [| t txs (r & dt & k & x & -> & _ & Htype & Hamount) _ IH];
    intros acc Hacc.
  - now exists acc.
  - assert (Hadd : ∃ x', py_add acc (VFloat x) = Ok (VFloat x')).
    { destruct Hacc as [-> | [x0 ->]]; eexists; reflexivity. }
    destruct Hadd as [x' Hadd].
    cbn [sum_amounts getitem]. rewrite Htype, Hamount. cbn [result_bind].
    destruct (eq_str (VStr k) kind); rewrite ?Hadd; cbn [result_bind];
      apply IH; first [exact Hacc | right; now exists x'].
Qed.

Section Report.
Context `{Formatter}.

Lemma format_money_total (v : value) :
  running_total v → ∃ s, format_money v = Ok s.
Proof. intros [-> | [x ->]]; eexists; reflexivity. Qed.

Lemma py_sub_running (a b : value) :
  running_total a → running_total b → ∃ c, py_sub a b = Ok c ∧ running_total c.
Proof.
  intros [-> | [x ->]] [-> | [y ->]]; eexists; (split; [reflexivity |]);
    first [now left | right; eexists; reflexivity].
Qed.

(** The report of a summary whose three amounts print. *)
Lemma print_summary_lines (y m : Z) (w w' : world) (inc exp bal count : value)
    (i e b : string) :
  summarize_month y m w =
    (Ok (VDict {[ "income" := inc; "expense" := exp;
                  "balance" := bal; "count" := count ]}), w') →
  format_money inc = Ok i →
  format_money exp = Ok e →
  format_money bal = Ok b →
  print_summary y m w =
  (Ok tt,
   with_lines
     [ newline +:+ "Ringkasan untuk " +:+ format_0d 4 y +:+ "-" +:+ format_0d 2 m;
       "  Total Pemasukan : Rp" +:+ i;
       "  Total Pengeluaran: Rp" +:+ e;
       "  Saldo            : Rp" +:+ b;
       "  Jumlah transaksi : " +:+ show count ] w').
Proof.
  intros Hsum Hi He Hb. unfold print_summary. rewrite (bind_ok _ _ _ _ _ Hsum).
  change (getitem (VDict {[ "income" := inc; "expense" := exp;
                            "balance" := bal; "count" := count ]}) "income")
    with (@Ok value inc).
  change (getitem (VDict {[ "income" := inc; "expense" := exp;
                            "balance" := bal; "count" := count ]}) "expense")
    with (@Ok value exp).
  change (getitem (VDict {[ "income" := inc; "expense" := exp;
                            "balance" := bal; "count" := count ]}) "balance")
    with (@Ok value bal).
  change (getitem (VDict {[ "income" := inc; "expense" := exp;
                            "balance" := bal; "count" := count ]}) "count")
    with (@Ok value count).
  cbn [result_bind]. rewrite Hi, He, Hb. reflexivity.
Qed.

(** X14. The report of a month: on a ledger whose rows each have a
    date, a string type and a float amount, [print_summary] never
    raises and prints five lines: the heading with the year padded to
    four digits and the month to two, the three amounts, and the number
    of rows of the month; it changes nothing but the console. *)
Theorem summary_report (y m : Z) (w w' : world) (data : value) (rows : list value) :
  load_data w = (Ok data, w') →
  getitem data "transactions" = Ok (VList rows) →
  Forall kept_row rows →
  ∃ income expense balance,
    print_summary y m w =
    (Ok tt,
     with_lines
       [ newline +:+ "Ringkasan untuk " +:+ format_0d 4 y +:+ "-" +:+ format_0d 2 m;
         "  Total Pemasukan : Rp" +:+ income;
         "  Total Pengeluaran: Rp" +:+ expense;
         "  Saldo            : Rp" +:+ balance;
         "  Jumlah transaksi : " +:+
           decimal (Z.of_nat (length (month_loop y m rows []))) ] w').
Proof.
  intros Hload Hrows Hkept.
  pose proof (kept_row_month y m rows Hkept) as Hm.
  destruct (sum_amounts_kept "income" _ Hm (VInt 0)) as (inc & Hinc & Ti); [now left |].
  destruct (sum_amounts_kept "expense" _ Hm (VInt 0)) as (exp & Hexp & Te); [now left |].
  destruct (py_sub_running inc exp Ti Te) as (bal & Hbal & Tb).
  destruct (format_money_total inc Ti) as [i Hi].
  destruct (format_money_total exp Te) as [e He].
  destruct (format_money_total bal Tb) as [b Hb].
  exists i, e, b.
  apply (print_summary_lines y m w w' inc exp bal
           (VInt (Z.of_nat (length (month_loop y m rows []))))); try assumption.
  assert (Hget : get_month_transactions y m w = (Ok (month_loop y m rows []), w')).
  { unfold get_month_transactions.
    now rewrite (bind_ok _ _ _ _ _ Hload), (bind_lift_ok _ _ _ _ Hrows). }
  unfold summarize_month. rewrite (bind_ok _ _ _ _ _ Hget).
  now rewrite (bind_lift_ok _ _ _ _ Hinc), (bind_lift_ok _ _ _ _ Hexp),
    (bind_lift_ok _ _ _ _ Hbal).
Qed.

End Report.

Lemma summary_report_witness :
  ∃ income expense balance,
    @print_summary plain_formatter 2024 3 (one_record Writable) =
    (Ok tt,
     with_lines
       [ newline +:+ "Ringkasan untuk " +:+ format_0d 4 2024 +:+ "-" +:+ format_0d 2 3;
         "  Total Pemasukan : Rp" +:+ income;
         "  Total Pengeluaran: Rp" +:+ expense;
         "  Saldo            : Rp" +:+ balance;
         "  Jumlah transaksi : " +:+
           decimal (Z.of_nat (length (month_loop 2024 3 [salary] []))) ]
       (one_record Writable)).
Proof.
  apply (@summary_report plain_formatter 2024 3 (one_record Writable) (one_record Writable)
           (VDict {[ "transactions" := VList [salary] ]}) [salary]).
  - reflexivity.
  - reflexivity.
  - constructor; [exact salary_kept | constructor].
Defined.

(** * The demo *)

Lemma app_cons (c : ascii) (s t : string) : String c s +:+ t = String c (s +:+ t).
Proof. reflexivity. Qed.

Lemma string_app_assoc (s t u : string) : (s +:+ t) +:+ u = s +:+ (t +:+ u).
Proof.
  induction s as [| c s IH]; [reflexivity |]. now rewrite !app_cons, IH.
Qed.

Lemma padded_tail (width : nat) :
  ∀ n tail, padded width n tail = padded width n EmptyString +:+ tail.
Proof.
  induction width as [| width IH]; intros n tail; [reflexivity |].
  cbn [padded]. rewrite (IH _ (String _ tail)), (IH _ (String _ EmptyString)).
  now rewrite string_app_assoc.
Qed.

(** Years of four digits and months are written alike by [str],
    [{:02d}] and [isoformat]. *)
Lemma decimal_four_digits (y : Z) :
  1000 <= y <= 9999 → decimal y = padded 4 y EmptyString.
Proof.
  intros Hy.
  assert (Hall : forallb (fun n => String.eqb (decimal (Z.of_nat n))
                                     (padded 4 (Z.of_nat n) EmptyString))
                   (seq (Z.to_nat 1000) (Z.to_nat 9000)) = true)
    by (vm_compute; reflexivity).
  rewrite forallb_forall in Hall.
  specialize (Hall (Z.to_nat y)). rewrite Z2Nat.id in Hall by lia.
  apply String.eqb_eq, Hall, in_seq. lia.
Qed.

Lemma format_two_digits (m : Z) :
  0 <= m <= 99 → format_0d 2 m = padded 2 m EmptyString.
Proof.
  intros Hm.
  assert (Hall : forallb (fun n => String.eqb (format_0d 2 (Z.of_nat n))
                                     (padded 2 (Z.of_nat n) EmptyString))
                   (seq (Z.to_nat 0) (Z.to_nat 100)) = true)
    by (vm_compute; reflexivity).
  rewrite forallb_forall in Hall.
  specialize (Hall (Z.to_nat m)). rewrite Z2Nat.id in Hall by lia.
  apply String.eqb_eq, Hall, in_seq. lia.
Qed.

Lemma days_in_month_least (y m : Z) : 28 <= days_in_month y m.
Proof.
  unfold days_in_month.
  repeat match goal with |- context [if ?b then _ else _] => destruct b end; lia.
Qed.

Lemma valid_early_day (d : date) (n : Z) :
  valid_date d = true → 1 <= n <= 28 →
  valid_date {| year := year d; month := month d; day := n |} = true.
Proof.
  unfold valid_date. cbn [year month day]. rewrite !andb_true_iff, !Z.leb_le.
  pose proof (days_in_month_least (year d) (month d)). lia.
Qed.

(** The dates of [demo_run] read back as days of the month they were
    built from, when the year has four digits. *)
Lemma demo_date_parses (d : date) (n : Z) :
  valid_date d = true →
  1000 <= year d →
  1 <= n <= 28 →
  fromisoformat (demo_date (year d) (month d) (padded 2 n EmptyString)) =
  Ok {| year := year d; month := month d; day := n |}.
Proof.
  intros Hv Hy Hn. pose proof (valid_early_day d n Hv Hn) as Hv'.
  destruct (valid_date_bounds d Hv) as (Hy' & Hm & _).
  unfold demo_date, fromisoformat.
  rewrite decimal_four_digits, format_two_digits by lia.
  replace (padded 4 (year d) EmptyString +:+ "-" +:+
           padded 2 (month d) EmptyString +:+ "-" +:+ padded 2 n EmptyString)
    with (date_isoformat {| year := year d; month := month d; day := n |}).
  - now rewrite (date_isoformat_parses _ Hv').
  - unfold date_isoformat. cbn [year month day].
    rewrite (padded_tail 4), (padded_tail 2 (month d)). reflexivity.
Qed.

Section Demo.
Context `{FloatParser} `{Formatter}.

Lemma month_loop_hit (y m : Z) (t : value) (rest results : list value) (d : date) :
  row_date t = Ok d → year d = y → month d = m →
  month_loop y m (t :: rest) results = month_loop y m rest (results ++ [t]).
Proof.
  intros Hd <- <-. cbn [month_loop]. now rewrite Hd, !Z.eqb_refl.
Qed.

(** X15. What the demo does on an empty store: when the clock shows a
    real date in a year of four digits, [demo_run] appends its three
    records dated the 1st, 2nd and 5th of the current month and prints
    the report of that month: income 5000000, expense 1800000, balance
    3200000, three transactions. *)
Theorem demo_run_report (w : world) :
  ledger_on_disk w empty_ledger →
  disk w = Writable →
  valid_date (on (clock w (ticks w))) = true →
  1000 <= year (on (clock w (ticks w))) →
  let this_day := on (clock w (ticks w)) in
  ∃ rows w',
    demo_run w = (Ok tt, w') ∧
    data_json w' = Some (Text (VDict {[ "transactions" := VList rows ]})) ∧
    Forall2 stored (demo_entries (year this_day) (month this_day)) rows ∧
    stdout w' =
      stdout w ++
      [ "Menjalankan demo: menambahkan 3 transaksi contoh.";
        newline +:+ "Ringkasan untuk " +:+ format_0d 4 (year this_day) +:+ "-" +:+
          format_0d 2 (month this_day);
        "  Total Pemasukan : Rp" +:+ money 5000000;
        "  Total Pengeluaran: Rp" +:+ money 1800000;
        "  Saldo            : Rp" +:+ money 3200000;
        "  Jumlah transaksi : 3" ].
Proof.
  intros Hstart Hdisk Hclock Hyear this_day.
  set (y := year this_day). set (m := month this_day).
  set (wa := with_tick w).
  assert (Hla : ledger_on_disk wa empty_ledger) by (destruct Hstart; [left | right]; assumption).
  pose proof (add_transaction_stores wa empty_ledger [] (VStr "income") (VInt 5000000)
                5000000 (VStr "Gaji") (VStr "Gaji bulan ini") (demo_date y m "01")) as H1.
  rewrite app_nil_l in H1.
  set (r1 := txn_record _ _ _ _ _ _) in H1. set (d1 := <[_ := _]> _) in H1.
  set (w1 := with_file _ _) in H1.
  specialize (H1 Hla eq_refl Hdisk ltac:(discriminate) eq_refl).
  pose proof (add_transaction_stores w1 d1 [r1] (VStr "expense") (VInt 1500000)
                1500000 (VStr "Sewa") (VStr "Sewa rumah") (demo_date y m "02")) as H2.
  set (r2 := txn_record _ _ _ _ _ _) in H2. set (d2 := <[_ := _]> _) in H2.
  set (w2 := with_file _ _) in H2.
  specialize (H2 (or_intror eq_refl) (lookup_insert_eq _ _ _) Hdisk
                ltac:(discriminate) eq_refl).
  pose proof (add_transaction_stores w2 d2 ([r1] ++ [r2]) (VStr "expense") (VInt 300000)
                300000 (VStr "Makan") (VStr "Makan dan belanja") (demo_date y m "05")) as H3.
  set (r3 := txn_record _ _ _ _ _ _) in H3. set (d3 := <[_ := _]> _) in H3.
  set (w3 := with_file _ _) in H3.
  specialize (H3 (or_intror eq_refl) (lookup_insert_eq _ _ _) Hdisk
                ltac:(discriminate) eq_refl).
  set (w4 := with_line "Menjalankan demo: menambahkan 3 transaksi contoh." w3).
  assert (Hd1 : row_date r1 = Ok {| year := y; month := m; day := 1 |}).
  { unfold row_date, r1. rewrite txn_record_date. cbn [result_bind].
    change (demo_date y m "01")
      with (demo_date (year this_day) (month this_day) (padded 2 1 EmptyString)).
    now rewrite (demo_date_parses this_day 1 Hclock Hyear) by lia. }
  assert (Hd2 : row_date r2 = Ok {| year := y; month := m; day := 2 |}).
  { unfold row_date, r2. rewrite txn_record_date. cbn [result_bind].
    change (demo_date y m "02")
      with (demo_date (year this_day) (month this_day) (padded 2 2 EmptyString)).
    now rewrite (demo_date_parses this_day 2 Hclock Hyear) by lia. }
  assert (Hd3 : row_date r3 = Ok {| year := y; month := m; day := 5 |}).
  { unfold row_date, r3. rewrite txn_record_date. cbn [result_bind].
    change (demo_date y m "05")
      with (demo_date (year this_day) (month this_day) (padded 2 5 EmptyString)).
    now rewrite (demo_date_parses this_day 5 Hclock Hyear) by lia. }
  assert (Hget : get_month_transactions y m w4 = (Ok [r1; r2; r3], w4)).
  { unfold get_month_transactions.
    erewrite bind_ok by (apply load_data_text; reflexivity).
    cbn [getitem]. unfold d3. rewrite lookup_insert_eq.
    rewrite (bind_lift_ok _ _ _ _ eq_refl). cbn [iterate app].
    rewrite (bind_lift_ok _ _ _ _ eq_refl). unfold ret.
    rewrite (month_loop_hit _ _ _ _ _ _ Hd1 eq_refl eq_refl).
    rewrite (month_loop_hit _ _ _ _ _ _ Hd2 eq_refl eq_refl).
    now rewrite (month_loop_hit _ _ _ _ _ _ Hd3 eq_refl eq_refl). }
  assert (Hsum : summarize_month y m w4 =
                 (Ok (VDict {[ "income" := VFloat 5000000; "expense" := VFloat 1800000;
                               "balance" := VFloat 3200000; "count" := VInt 3 ]}), w4)).
  { unfold summarize_month. rewrite (bind_ok _ _ _ _ _ Hget).
    unfold r1, r2, r3.
    generalize (datetime_isoformat (clock wa (ticks wa))),
               (datetime_isoformat (clock w1 (ticks w1))),
               (datetime_isoformat (clock w2 (ticks w2))),
               (demo_date y m "01"), (demo_date y m "02"), (demo_date y m "05").
    intros s1 s2 s3 dt1 dt2 dt3. generalize w4. intros w'.
    vm_compute. reflexivity. }
  pose proof (print_summary_lines y m w4 w4 _ _ _ _ _ _ _ Hsum eq_refl eq_refl eq_refl)
    as Hprint.
  exists [r1; r2; r3]. eexists. split; [| split; [| split]].
  - unfold demo_run, bind at 1, today at 1. fold this_day wa y m.
    rewrite (bind_ok _ _ _ _ _ H1), (bind_ok _ _ _ _ _ H2), (bind_ok _ _ _ _ _ H3).
    unfold bind at 1, print at 1. fold w4. exact Hprint.
  - reflexivity.
  - repeat constructor; apply txn_record_stored.
  - cbn [with_lines fold_left]. unfold w4. cbn [stdout with_line with_file with_tick].
    repeat rewrite <- app_assoc. reflexivity.
Qed.

End Demo.

Lemma demo_run_report_witness :
  ∃ rows w',
    @demo_run digits_parser plain_formatter fresh = (Ok tt, w') ∧
    data_json w' = Some (Text (VDict {[ "transactions" := VList rows ]})) ∧
    Forall2 stored (demo_entries 2024 3) rows ∧
    stdout w' =
      stdout fresh ++
      [ "Menjalankan demo: menambahkan 3 transaksi contoh.";
        newline +:+ "Ringkasan untuk " +:+ format_0d 4 2024 +:+ "-" +:+ format_0d 2 3;
        "  Total Pemasukan : Rp" +:+ @money plain_formatter 5000000;
        "  Total Pengeluaran: Rp" +:+ @money plain_formatter 1800000;
        "  Saldo            : Rp" +:+ @money plain_formatter 3200000;
        "  Jumlah transaksi : 3" ].
Proof.
  apply (@demo_run_report digits_parser plain_formatter fresh).
  - now left.
  - reflexivity.
  - reflexivity.
  - vm_compute. discriminate.
Defined.

(** * The menu *)

Lemma session_bind_inl {A B} (m : Session A) (k : A → Session B) stdin w a rest w' :
  m stdin w = (inl a, rest, w') → session_bind m k stdin w = k a rest w'.
Proof. intros Hm. unfold session_bind. now rewrite Hm. Qed.

Lemma session_bind_inr {A B} (m : Session A) (k : A → Session B) stdin w e rest w' :
  m stdin w = (inr e, rest, w') → session_bind m k stdin w = (inr e, rest, w').
Proof. intros Hm. unfold session_bind. now rewrite Hm. Qed.

Lemma run_ok {A} (m : M A) stdin w a w' :
  m w = (Ok a, w') → run m stdin w = (inl a, stdin, w').
Proof. intros Hm. unfold run. now rewrite Hm. Qed.

Lemma run_raise {A} (m : M A) stdin w e w' :
  m w = (Raise e, w') → run m stdin w = (inr (Escaped e), stdin, w').
Proof. intros Hm. unfold run. now rewrite Hm. Qed.

Lemma reads_on_run {A} (m : M A) : reads_on (run m).
Proof.
  intros stdin w r rest w' Hrun. unfold run in Hrun.
  destruct (m w) as [[a | e] w1]; injection Hrun as <- <- <-; repeat split; auto; discriminate.
Qed.

Lemma reads_on_input (prompt : string) : reads_on (input prompt).
Proof.
  intros [| line stdin] w r rest w' Hin; injection Hin as <- <- <-;
    repeat split; auto; try discriminate.
  apply suffix_cons_r. reflexivity.
Qed.

Lemma reads_on_bind {A B} (m : Session A) (k : A → Session B) :
  reads_on m → (∀ a, reads_on (k a)) → reads_on (session_bind m k).
Proof.
  intros Hm Hk stdin w r rest w' Hrun. unfold session_bind in Hrun.
  destruct (m stdin w) as [[[a | e] rest1] w1] eqn:Hfirst.
  - destruct (Hm _ _ _ _ _ Hfirst) as (Hsuf & _ & _).
    destruct (Hk a _ _ _ _ _ Hrun) as (Hsuf' & Hret & Heof).
    repeat split; auto. now transitivity rest1.
  - injection Hrun as <- <- <-.
    destruct (Hm _ _ _ _ _ Hfirst) as (Hsuf & Hret & Heof).
    split; [exact Hsuf |]. split.
    + intros Heq. apply Hret. injection Heq as ->. reflexivity.
    + intros Heq. apply Heof. injection Heq as ->. reflexivity.
Qed.

Lemma keeps_file_ret {A} (a : A) : keeps_file (ret a).
Proof. now intros w. Qed.

Lemma keeps_file_lift {A} (r : result A) : keeps_file (lift r).
Proof. now intros w. Qed.

Lemma keeps_file_print (s : string) : keeps_file (print s).
Proof. now intros w. Qed.

Lemma keeps_file_today : keeps_file today.
Proof. now intros w. Qed.

Lemma keeps_file_load_data : keeps_file load_data.
Proof.
  intros w. destruct (load_data_frame w) as (doc & w' & -> & [-> | ->]); now split.
Qed.

Lemma keeps_file_bind {A B} (m : M A) (k : A → M B) :
  keeps_file m → (∀ a, keeps_file (k a)) → keeps_file (bind m k).
Proof.
  intros Hm Hk w. unfold bind. specialize (Hm w).
  destruct (m w) as [[a | e] w1]; simpl in Hm; [| exact Hm].
  destruct (Hk a w1) as [Hf Hd]. destruct Hm as [Hf1 Hd1]. split; congruence.
Qed.

Create HintDb keeps.
#[local] Hint Resolve keeps_file_ret keeps_file_lift keeps_file_print keeps_file_today
  keeps_file_load_data : keeps.

Ltac keeps :=
  repeat first
    [ solve [auto with keeps]
    | apply keeps_file_bind; [| intros ?] ].

Lemma keeps_file_summarize_month (y m : Z) : keeps_file (summarize_month y m).
Proof. unfold summarize_month, get_month_transactions. keeps. Qed.

Section Console.
Context `{Formatter}.

Lemma keeps_file_print_summary (y m : Z) : keeps_file (print_summary y m).
Proof.
  unfold print_summary.
  apply keeps_file_bind; [apply keeps_file_summarize_month | intros s]. keeps.
Qed.

Lemma keeps_file_list_loop (rows : list value) : ∀ i, keeps_file (list_loop i rows).
Proof.
  induction rows as [| t rows IH]; intros i; cbn [list_loop]; [apply keeps_file_ret |].
  apply keeps_file_bind; [apply keeps_file_lift | intros line].
  apply keeps_file_bind; [apply keeps_file_print | intros _; apply IH].
Qed.

Lemma keeps_file_list_transactions (txs : value) : keeps_file (list_transactions txs).
Proof.
  unfold list_transactions. destruct (negb (truthy txs)); [apply keeps_file_print |].
  apply keeps_file_bind; [apply keeps_file_lift | intros rows; apply keeps_file_list_loop].
Qed.

End Console.

Lemma looks_on_run {A} (m : M A) : keeps_file m → looks_on (run m).
Proof.
  intros Hm stdin w r rest w' _ Hrun. unfold run in Hrun. specialize (Hm w).
  destruct (m w) as [[a | e] w1]; injection Hrun as <- <- <-; now split.
Qed.

Lemma looks_on_input (prompt : string) : looks_on (input prompt).
Proof.
  intros [| line stdin] w r rest w' _ Hin; injection Hin as <- <- <-;
    repeat split; auto.
  apply suffix_cons_r. reflexivity.
Qed.

Lemma Forall_suffix {A} (P : A → Prop) (l k : list A) :
  l `suffix_of` k → Forall P k → Forall P l.
Proof. intros [used ->] Hall. now apply Forall_app in Hall. Qed.

Lemma looks_on_bind {A B} (m : Session A) (k : A → Session B) :
  looks_on m → (∀ a, looks_on (k a)) → looks_on (session_bind m k).
Proof.
  intros Hm Hk stdin w r rest w' Hall Hrun. unfold session_bind in Hrun.
  destruct (m stdin w) as [[[a | e] rest1] w1] eqn:Hfirst.
  - destruct (Hm _ _ _ _ _ Hall Hfirst) as (Hsuf & Hf & Hd).
    destruct (Hk a _ _ _ _ _ (Forall_suffix _ _ _ Hsuf Hall) Hrun) as (Hsuf' & Hf' & Hd').
    split; [now transitivity rest1 | split; congruence].
  - injection Hrun as <- <- <-. exact (Hm _ _ _ _ _ Hall Hfirst).
Qed.

(** What [load_data] returns depends on the file alone. *)
Lemma load_data_doc (w w' : world) :
  data_json w' = data_json w → (load_data w').1 = (load_data w).1.
Proof.
  destruct w as [f dk ck tk out], w' as [f' dk' ck' tk' out']. simpl. intros ->.
  now destruct f as [[doc | d | raw] |].
Qed.

Lemma sound_store_same_file (w w' : world) :
  data_json w' = data_json w → disk w' = disk w → sound_store w → sound_store w'.
Proof.
  intros Hf Hd (Hdisk & d & rows & Hload & Hrows & Hkept).
  split; [congruence |]. exists d, rows. now rewrite (load_data_doc _ _ Hf).
Qed.

Lemma sound_store_with_line (s : string) (w : world) :
  sound_store w → sound_store (with_line s w).
Proof. now apply sound_store_same_file. Qed.

Lemma sound_store_with_lines (lines : list string) :
  ∀ w, sound_store w → sound_store (with_lines lines w).
Proof.
  induction lines as [| l lines IH]; intros w Hw; [exact Hw |].
  rewrite with_lines_cons. now apply IH, sound_store_with_line.
Qed.

Lemma sound_store_loads (w : world) :
  sound_store w →
  ∃ d rows w1,
    load_data w = (Ok (VDict d), w1) ∧ d !! "transactions" = Some (VList rows) ∧
    Forall kept_row rows ∧ data_json w1 = data_json w ∧ disk w1 = Writable.
Proof.
  intros (Hdisk & d & rows & Hload & Hrows & Hkept).
  destruct (load_data_frame w) as (doc & w1 & Hrun & Hw1).
  rewrite Hrun in Hload. simpl in Hload. injection Hload as ->.
  exists d, rows, w1. repeat split; auto; destruct Hw1 as [-> | ->]; auto.
Qed.

Lemma sound_store_saved (d : gmap string value) (rows : list value) (w : world) :
  disk w = Writable →
  d !! "transactions" = Some (VList rows) →
  Forall kept_row rows →
  sound_store (with_file (Some (Text (VDict d))) w).
Proof.
  intros Hdisk Hrows Hkept. split; [exact Hdisk |]. exists d, rows.
  split; [| now split]. now rewrite (load_data_text _ (VDict d)).
Qed.

Lemma txn_record_kept (k : string) (x : float) (category note dt : value) (stamp : string) :
  kept_row (txn_record (VStr k) x category note dt stamp).
Proof. eexists _, dt, k, x. repeat split; reflexivity. Qed.

Section Menu.
Context `{FloatParser} `{Formatter}.

(** The head of a turn: the menu is written and the choice read. *)
Lemma menu_turn_eof (w : world) :
  menu_turn [] w = (inr EOFError, [], with_lines menu_lines w).
Proof. reflexivity. Qed.

Lemma menu_turn_line (c : string) (rest : list string) (w : world) :
  menu_turn (c :: rest) w = menu_choice (strip c) rest (with_lines menu_lines w).
Proof. reflexivity. Qed.

Lemma reads_on_menu_add (tx_type ask invalid saved : string) :
  reads_on (menu_add tx_type ask invalid saved).
Proof.
  unfold menu_add. apply reads_on_bind; [apply reads_on_input |]. intros amt.
  destruct (py_float (VStr (strip amt))); [| apply reads_on_run].
  repeat (apply reads_on_bind; [first [apply reads_on_input | apply reads_on_run] | intros ?]).
  apply reads_on_run.
Qed.

(** Every choice but [0] reads on. *)
Lemma reads_on_menu_choice (choice : string) :
  choice ≠ "0" → reads_on (menu_choice choice).
Proof.
  intros Hzero. unfold menu_choice.
  destruct (String.eqb choice "1"); [apply reads_on_menu_add |].
  destruct (String.eqb choice "2"); [apply reads_on_menu_add |].
  destruct (String.eqb choice "3").
  { apply reads_on_bind; [apply reads_on_run | intros ?; apply reads_on_run]. }
  destruct (String.eqb choice "4").
  { repeat (apply reads_on_bind; [apply reads_on_run | intros ?]). apply reads_on_run. }
  destruct (String.eqb choice "5").
  { apply reads_on_bind; [apply reads_on_input | intros ?; apply reads_on_run]. }
  destruct (String.eqb choice "0") eqn:Hz; [| apply reads_on_run].
  now apply String.eqb_eq in Hz.
Qed.

Lemma menu_choice_quit (stdin : list string) (w : world) :
  menu_choice "0" stdin w = (inr Returned, stdin, with_line "Selesai. Sampai jumpa!" w).
Proof. reflexivity. Qed.

(** A turn that goes on has read a line. *)
Lemma menu_turn_reads (stdin rest : list string) (w w' : world) (u : unit) :
  menu_turn stdin w = (inl u, rest, w') → (length rest < length stdin)%nat.
Proof.
  destruct stdin as [| c stdin]; [rewrite menu_turn_eof; discriminate |].
  rewrite menu_turn_line. intros Hrun.
  destruct (String.eqb (strip c) "0") eqn:Hz.
  - apply String.eqb_eq in Hz. rewrite Hz, menu_choice_quit in Hrun. discriminate.
  - apply String.eqb_neq in Hz.
    destruct (reads_on_menu_choice _ Hz _ _ _ _ _ Hrun) as (Hsuf & _).
    apply suffix_length in Hsuf. simpl. lia.
Qed.

(** The loop does not depend on its fuel, once there is more of it than
    lines to read. *)
Lemma menu_loop_fuel (n : nat) :
  ∀ m stdin w,
    (length stdin < n)%nat → (length stdin < m)%nat →
    menu_loop n stdin w = menu_loop m stdin w.
Proof.
  induction n as [| n IH]; intros m stdin w Hn Hm; [lia |].
  destruct m as [| m]; [lia |]. cbn [menu_loop].
  destruct (menu_turn stdin w) as [[[u | e] rest] w'] eqn:Hturn; [| reflexivity].
  apply menu_turn_reads in Hturn. apply IH; lia.
Qed.

Lemma interactive_menu_next (stdin rest : list string) (w w' : world) (u : unit) :
  menu_turn stdin w = (inl u, rest, w') →
  interactive_menu stdin w = interactive_menu rest w'.
Proof.
  intros Hturn. unfold interactive_menu at 1. cbn [menu_loop]. rewrite Hturn.
  apply menu_turn_reads in Hturn. apply menu_loop_fuel; lia.
Qed.

Lemma interactive_menu_last (stdin rest : list string) (w w' : world) (e : ending) :
  menu_turn stdin w = (inr e, rest, w') →
  interactive_menu stdin w = Some (e, rest, w').
Proof. intros Hturn. unfold interactive_menu. cbn [menu_loop]. now rewrite Hturn. Qed.

(** Induction on a session: a property of the turns that end it, kept
    by the turns that go on. *)
Lemma session_ind (P : list string → world → option (ending * list string * world) → Prop) :
  (∀ stdin w e rest w',
     menu_turn stdin w = (inr e, rest, w') → P stdin w (Some (e, rest, w'))) →
  (∀ stdin w u rest w',
     menu_turn stdin w = (inl u, rest, w') →
     P rest w' (interactive_menu rest w') → P stdin w (interactive_menu rest w')) →
  ∀ stdin w, P stdin w (interactive_menu stdin w).
Proof.
  intros Hlast Hnext stdin.
  induction stdin as [stdin IH] using (induction_ltof1 _ (@length string)).
  intros w. destruct (menu_turn stdin w) as [[[u | e] rest] w'] eqn:Hturn.
  - rewrite (interactive_menu_next _ _ _ _ _ Hturn).
    apply (Hnext _ _ _ _ _ Hturn). apply IH. unfold ltof.
    now apply menu_turn_reads in Hturn.
  - rewrite (interactive_menu_last _ _ _ _ _ Hturn). now apply Hlast.
Qed.

(** What a turn leaves is the end of what it found; it ends the call
    by returning only on a line that reads [0], and by [EOFError] only
    with nothing left. *)
Lemma menu_turn_reads_on (stdin rest : list string) (w w' : world) (r : unit + ending) :
  menu_turn stdin w = (r, rest, w') →
  rest `suffix_of` stdin ∧
  (r = inr Returned → ∃ line, stdin = line :: rest ∧ strip line = "0") ∧
  (r = inr EOFError → rest = []).
Proof.
  destruct stdin as [| c stdin].
  - rewrite menu_turn_eof. intros Hrun. injection Hrun as <- <- <-.
    repeat split; auto. discriminate.
  - rewrite menu_turn_line. intros Hrun.
    destruct (String.eqb (strip c) "0") eqn:Hz.
    + apply String.eqb_eq in Hz. rewrite Hz, menu_choice_quit in Hrun.
      injection Hrun as <- <- <-. split; [apply suffix_cons_r; reflexivity |].
      split; [| discriminate]. intros _. now exists c.
    + apply String.eqb_neq in Hz.
      destruct (reads_on_menu_choice _ Hz _ _ _ _ _ Hrun) as (Hsuf & Hret & Heof).
      split; [now apply suffix_cons_r |]. split; [intros Hr; now destruct (Hret Hr) | exact Heof].
Qed.

(** X16. A call of the menu ends: on a finite input the loop stops,
    whatever the file holds.  It returns only on a line that reads [0]
    once stripped, and leaves what follows that line unread; when the
    input runs out before, the call ends by [EOFError], which nothing
    in the script catches. *)
Theorem menu_session_ends (stdin : list string) (w : world) :
  ∃ e rest w',
    interactive_menu stdin w = Some (e, rest, w') ∧
    rest `suffix_of` stdin ∧
    (e = Returned → ∃ read line, stdin = read ++ line :: rest ∧ strip line = "0") ∧
    (e = EOFError → rest = []).
Proof.
  revert stdin w.
  apply (session_ind (fun stdin w r =>
    ∃ e rest w',
      r = Some (e, rest, w') ∧ rest `suffix_of` stdin ∧
      (e = Returned → ∃ read line, stdin = read ++ line :: rest ∧ strip line = "0") ∧
      (e = EOFError → rest = []))).
  - intros stdin w e rest w' Hturn.
    destruct (menu_turn_reads_on _ _ _ _ _ Hturn) as (Hsuf & Hret & Heof).
    exists e, rest, w'. repeat split; auto.
    + intros ->. destruct (Hret eq_refl) as (line & -> & Hline). now exists [], line.
    + intros ->. now apply Heof.
  - intros stdin w u rest1 w1 Hturn (e & rest & w' & Hrun & Hsuf & Hret & Heof).
    destruct (menu_turn_reads_on _ _ _ _ _ Hturn) as ([used ->] & _ & _).
    exists e, rest, w'. repeat split; auto.
    + now apply suffix_app_r.
    + intros He. destruct (Hret He) as (read & line & -> & Hline).
      exists (used ++ read), line. now rewrite <- app_assoc.
Qed.

(** Choice 5 on an answer that does not confirm. *)
Lemma looks_on_clear (prompt : string) :
  looks_on (let+ confirm := input prompt in run (interactive_menu_clear (strip confirm))).
Proof.
  intros [| line stdin] w r rest w' Hall Hrun.
  - injection Hrun as <- <- <-. now repeat split.
  - apply Forall_cons in Hall as [(_ & _ & Hline) _].
    unfold session_bind, input, run, interactive_menu_clear in Hrun.
    apply String.eqb_neq in Hline. rewrite Hline in Hrun.
    injection Hrun as <- <- <-. split; [apply suffix_cons_r; reflexivity | now split].
Qed.

Lemma looks_on_menu_choice (choice : string) :
  choice ≠ "1" → choice ≠ "2" → looks_on (menu_choice choice).
Proof.
  intros H1%String.eqb_neq H2%String.eqb_neq. unfold menu_choice. rewrite H1, H2.
  destruct (String.eqb choice "3").
  { apply looks_on_bind; [apply looks_on_run, keeps_file_today | intros d].
    apply looks_on_run, keeps_file_print_summary. }
  destruct (String.eqb choice "4").
  { apply looks_on_bind; [apply looks_on_run, keeps_file_load_data | intros data].
    apply looks_on_bind; [apply looks_on_run, keeps_file_lift | intros txs].
    apply looks_on_run, keeps_file_list_transactions. }
  destruct (String.eqb choice "5"); [apply looks_on_clear |].
  destruct (String.eqb choice "0"); [| apply looks_on_run, keeps_file_print].
  apply looks_on_bind; [apply looks_on_run, keeps_file_print | intros _].
  intros stdin w r rest w' _ Hrun. injection Hrun as <- <- <-. now repeat split.
Qed.

Lemma looks_on_menu_turn : looks_on menu_turn.
Proof.
  intros [| c stdin] w r rest w' Hall.
  - rewrite menu_turn_eof. intros Hrun. injection Hrun as <- <- <-. now repeat split.
  - rewrite menu_turn_line. intros Hrun.
    apply Forall_cons in Hall as [(Hone & Htwo & _) Hall].
    destruct (looks_on_menu_choice _ Hone Htwo _ _ _ _ _ Hall Hrun) as (Hsuf & Hf & Hd).
    split; [now apply suffix_cons_r | now split].
Qed.

(** X17. Looking changes nothing: in a session where no line reads [1]
    or [2] and no line reads [YA] in any case of letters, once stripped,
    [data.json] and the device are at the end what they were at the
    start, whatever the file holds and however the session ends. *)
Theorem menu_reads_keep_file (stdin : list string) (w : world) :
  Forall harmless stdin →
  ∃ e rest w',
    interactive_menu stdin w = Some (e, rest, w') ∧
    data_json w' = data_json w ∧ disk w' = disk w.
Proof.
  revert stdin w.
  apply (session_ind (fun stdin w r =>
    Forall harmless stdin →
    ∃ e rest w', r = Some (e, rest, w') ∧ data_json w' = data_json w ∧ disk w' = disk w)).
  - intros stdin w e rest w' Hturn Hall.
    destruct (looks_on_menu_turn _ _ _ _ _ Hall Hturn) as (_ & Hf & Hd).
    now exists e, rest, w'.
  - intros stdin w u rest1 w1 Hturn IH Hall.
    destruct (looks_on_menu_turn _ _ _ _ _ Hall Hturn) as (Hsuf & Hf & Hd).
    destruct (IH (Forall_suffix _ _ _ Hsuf Hall)) as (e & rest & w' & Hrun & Hf' & Hd').
    exists e, rest, w'. split; [exact Hrun | split; congruence].
Qed.

(** An append on a sound store goes through and leaves a sound store. *)
Lemma add_transaction_sound (k : string) (amount category note tx_date : value)
    (x : float) (w : world) :
  sound_store w →
  py_float amount = Ok x →
  ∃ w', add_transaction (VStr k) amount category note tx_date w = (Ok tt, w') ∧
        sound_store w'.
Proof.
  intros Hw Hx.
  destruct (sound_store_loads w Hw) as (d & rows & w1 & Hload & Hrows & Hkept & Hf & Hd).
  rewrite (add_transaction_steps _ _ _ _ _ _ _ _ Hload). cbv zeta. rewrite Hx.
  cbn [getitem]. rewrite Hrows. cbn [list_append mapping].
  destruct (resolved_date_store tx_date w1) as [_ Hd2].
  rewrite save_data_writable by (simpl; congruence).
  eexists. split; [reflexivity |].
  apply (sound_store_saved _ (rows ++ [txn_record (VStr k) x category note
           (resolved_date tx_date w1).1
           (datetime_isoformat (clock (resolved_date tx_date w1).2
                                  (ticks (resolved_date tx_date w1).2)))])).
  - simpl. congruence.
  - apply lookup_insert_eq.
  - apply Forall_app. split; [exact Hkept |]. constructor; [apply txn_record_kept | constructor].
Qed.

Lemma print_summary_sound (y m : Z) (w : world) :
  sound_store w →
  ∃ w', print_summary y m w = (Ok tt, w') ∧ sound_store w'.
Proof.
  intros Hw.
  destruct (sound_store_loads w Hw) as (d & rows & w1 & Hload & Hrows & Hkept & Hf & Hd).
  pose proof (kept_row_month y m rows Hkept) as Hm.
  destruct (sum_amounts_kept "income" _ Hm (VInt 0)) as (inc & Hinc & Ti); [now left |].
  destruct (sum_amounts_kept "expense" _ Hm (VInt 0)) as (exp & Hexp & Te); [now left |].
  destruct (py_sub_running inc exp Ti Te) as (bal & Hbal & Tb).
  destruct (format_money_total inc Ti) as [i Hi].
  destruct (format_money_total exp Te) as [e He].
  destruct (format_money_total bal Tb) as [b Hb].
  assert (Hget : get_month_transactions y m w = (Ok (month_loop y m rows []), w1)).
  { unfold get_month_transactions. rewrite (bind_ok _ _ _ _ _ Hload).
    cbn [getitem]. rewrite Hrows. reflexivity. }
  assert (Hsum : summarize_month y m w =
                 (Ok (VDict {[ "income" := inc; "expense" := exp; "balance" := bal;
                               "count" := VInt (Z.of_nat (length (month_loop y m rows []))) ]}),
                  w1)).
  { unfold summarize_month. rewrite (bind_ok _ _ _ _ _ Hget).
    now rewrite (bind_lift_ok _ _ _ _ Hinc), (bind_lift_ok _ _ _ _ Hexp),
      (bind_lift_ok _ _ _ _ Hbal). }
  rewrite (print_summary_lines _ _ _ _ _ _ _ _ _ _ _ Hsum Hi He Hb).
  eexists. split; [reflexivity |].
  apply sound_store_with_lines, (sound_store_same_file w); auto.
  destruct Hw as [Hdisk _]. congruence.
Qed.

Lemma list_transactions_sound (rows : list value) (w : world) :
  Forall kept_row rows →
  sound_store w →
  ∃ w', list_transactions (VList rows) w = (Ok tt, w') ∧ sound_store w'.
Proof.
  intros Hrows Hw. destruct rows as [| t rows].
  - eexists. split; [reflexivity | now apply sound_store_with_line].
  - destruct (list_loop_kept _ Hrows 1 w) as (lines & Hrun & _).
    exists (with_lines lines w). split; [| now apply sound_store_with_lines].
    unfold list_transactions. cbn [truthy negb iterate].
    now rewrite (bind_lift_ok _ _ _ _ eq_refl).
Qed.

Lemma safe_on_run {A} (m : M A) :
  (∀ w, sound_store w → ∃ a w', m w = (Ok a, w') ∧ sound_store w') → safe_on (run m).
Proof.
  intros Hm stdin w r rest w' Hw Hrun.
  destruct (Hm w Hw) as (a & w1 & Hok & Hw1).
  rewrite (run_ok _ _ _ _ _ Hok) in Hrun. injection Hrun as <- <- <-.
  split; [exact Hw1 | discriminate].
Qed.

Lemma safe_on_print (s : string) : safe_on (run (print s)).
Proof.
  apply safe_on_run. intros w Hw. eexists _, _. split; [reflexivity |].
  now apply sound_store_with_line.
Qed.

Lemma safe_on_input (prompt : string) : safe_on (input prompt).
Proof.
  intros [| line stdin] w r rest w' Hw Hin; injection Hin as <- <- <-;
    (split; [now apply sound_store_with_line | discriminate]).
Qed.

Lemma safe_on_bind {A B} (m : Session A) (k : A → Session B) :
  safe_on m → (∀ a, safe_on (k a)) → safe_on (session_bind m k).
Proof.
  intros Hm Hk stdin w r rest w' Hw Hrun. unfold session_bind in Hrun.
  destruct (m stdin w) as [[[a | e] rest1] w1] eqn:Hfirst.
  - destruct (Hm _ _ _ _ _ Hw Hfirst) as (Hw1 & _). exact (Hk a _ _ _ _ _ Hw1 Hrun).
  - injection Hrun as <- <- <-.
    destruct (Hm _ _ _ _ _ Hw Hfirst) as (Hw1 & Hesc).
    split; [exact Hw1 |]. intros e' Heq. apply (Hesc e'). injection Heq as ->. reflexivity.
Qed.

Lemma safe_on_menu_add (k ask invalid saved : string) :
  safe_on (menu_add k ask invalid saved).
Proof.
  unfold menu_add. apply safe_on_bind; [apply safe_on_input | intros amt].
  destruct (py_float (VStr (strip amt))) as [x | e] eqn:Hx; [| apply safe_on_print].
  apply safe_on_bind; [apply safe_on_input | intros cat].
  apply safe_on_bind; [apply safe_on_input | intros note].
  apply safe_on_bind; [| intros _; apply safe_on_print].
  apply safe_on_run. intros w Hw.
  destruct (add_transaction_sound k (VStr (strip amt)) (VStr (strip cat))
              (VStr (strip note)) VNone x w Hw Hx) as (w' & Hrun & Hw').
  now exists tt, w'.
Qed.

Lemma safe_on_list : safe_on
  (let+ data := run load_data in
   let+ txs := run (lift (dict_get_or data "transactions" (VList []))) in
   run (list_transactions txs)).
Proof.
  intros stdin w r rest w' Hw Hrun.
  destruct (sound_store_loads w Hw) as (d & rows & w1 & Hload & Hrows & Hkept & Hf & Hd).
  assert (Hw1 : sound_store w1).
  { apply (sound_store_same_file w); auto. destruct Hw as [Hdisk _]. congruence. }
  destruct (list_transactions_sound rows w1 Hkept Hw1) as (w2 & Hlist & Hw2).
  unfold session_bind in Hrun. rewrite (run_ok _ _ _ _ _ Hload) in Hrun.
  unfold run at 1, lift in Hrun. cbn [dict_get_or] in Hrun. rewrite Hrows in Hrun.
  rewrite (run_ok _ _ _ _ _ Hlist) in Hrun. injection Hrun as <- <- <-.
  split; [exact Hw2 | discriminate].
Qed.

Lemma safe_on_clear (confirm : string) : safe_on (run (interactive_menu_clear confirm)).
Proof.
  apply safe_on_run. intros w Hw. unfold interactive_menu_clear.
  destruct (String.eqb (upper confirm) "YA").
  - destruct Hw as [Hdisk _]. eexists _, _.
    rewrite (bind_ok _ _ _ _ _ (save_data_writable _ _ Hdisk)).
    split; [reflexivity |]. apply sound_store_with_line.
    apply (sound_store_saved _ []); [exact Hdisk | reflexivity | constructor].
  - eexists _, _. split; [reflexivity | now apply sound_store_with_line].
Qed.

Lemma safe_on_menu_choice (choice : string) : safe_on (menu_choice choice).
Proof.
  unfold menu_choice.
  destruct (String.eqb choice "1"); [apply safe_on_menu_add |].
  destruct (String.eqb choice "2"); [apply safe_on_menu_add |].
  destruct (String.eqb choice "3").
  { apply safe_on_bind.
    - apply safe_on_run. intros w Hw. eexists _, _. split; [reflexivity |].
      now apply (sound_store_same_file w).
    - intros d. apply safe_on_run. intros w Hw.
      destruct (print_summary_sound (year d) (month d) w Hw) as (w' & Hrun & Hw').
      now exists tt, w'. }
  destruct (String.eqb choice "4"); [apply safe_on_list |].
  destruct (String.eqb choice "5").
  { apply safe_on_bind; [apply safe_on_input | intros confirm; apply safe_on_clear]. }
  destruct (String.eqb choice "0"); [| apply safe_on_print].
  apply safe_on_bind; [apply safe_on_print | intros _].
  intros stdin w r rest w' Hw Hrun. injection Hrun as <- <- <-. split; [exact Hw | discriminate].
Qed.

Lemma safe_on_menu_turn : safe_on menu_turn.
Proof.
  intros [| c stdin] w r rest w' Hw.
  - rewrite menu_turn_eof. intros Hrun. injection Hrun as <- <- <-.
    split; [now apply (sound_store_with_lines menu_lines) | discriminate].
  - rewrite menu_turn_line. apply safe_on_menu_choice. now apply sound_store_with_lines.
Qed.

(** X18. The menu does not crash on its own data: when the device
    takes writes and [load_data] returns a ledger of rows such as
    [add_transaction] writes (the file is missing, or unreadable, or
    holds such a ledger), no input makes an operation raise.  The
    session ends by returning or, at the end of the input, by
    [EOFError], and leaves such a store again. *)
Theorem menu_never_crashes (stdin : list string) (w : world) :
  sound_store w →
  ∃ e rest w',
    interactive_menu stdin w = Some (e, rest, w') ∧
    (e = Returned ∨ e = EOFError) ∧ sound_store w'.
Proof.
  revert stdin w.
  apply (session_ind (fun stdin w r =>
    sound_store w →
    ∃ e rest w', r = Some (e, rest, w') ∧ (e = Returned ∨ e = EOFError) ∧ sound_store w')).
  - intros stdin w e rest w' Hturn Hw.
    destruct (safe_on_menu_turn _ _ _ _ _ Hw Hturn) as (Hw' & Hesc).
    exists e, rest, w'. split; [reflexivity |]. split; [| exact Hw'].
    destruct e as [| | e]; auto. now destruct (Hesc e).
  - intros stdin w u rest1 w1 Hturn IH Hw.
    destruct (safe_on_menu_turn _ _ _ _ _ Hw Hturn) as (Hw1 & _). exact (IH Hw1).
Qed.

Lemma menu_add_stores (kind ask invalid saved amt cat note : string)
    (rest : list string) (x : float) (d : gmap string value) (rows : list value)
    (w : world) :
  float_of_str (strip amt) = Some x →
  ledger_on_disk w d →
  d !! "transactions" = Some (VList rows) →
  disk w = Writable →
  ∃ w',
    menu_add kind ask invalid saved (amt :: cat :: note :: rest) w = (inl tt, rest, w') ∧
    data_json w' =
      Some (Text (VDict (<["transactions" :=
        VList (rows ++
          [txn_record (VStr kind) x (VStr (strip cat)) (VStr (strip note))
             (VStr (date_isoformat (on (clock w (ticks w)))))
             (datetime_isoformat (clock w (S (ticks w))))])]> d))) ∧
    disk w' = Writable ∧ clock w' = clock w ∧ ticks w' = S (S (ticks w)).
Proof.
  intros Hx Hl Hrows Hdisk.
  set (w3 := with_line "Catatan (opsional): "
               (with_line "Kategori (opsional): " (with_line ask w))).
  assert (Hl3 : ledger_on_disk w3 d) by (destruct Hl as [[Hf ->] | Hf]; [left | right]; auto).
  assert (Hfloat : py_float (VStr (strip amt)) = Ok x) by (simpl; now rewrite Hx).
  pose proof (add_transaction_resolved (VStr kind) (VStr (strip amt)) (VStr (strip cat))
                (VStr (strip note)) VNone x w3 d rows Hl3 Hrows Hdisk Hfloat) as Hadd.
  exists (with_line saved
            (appended (VStr kind) (VStr (strip cat)) (VStr (strip note)) VNone x d rows w3)).
  split.
  - unfold menu_add, session_bind, input. rewrite Hfloat.
    fold w3. now rewrite (run_ok _ _ _ _ _ Hadd).
  - unfold appended. rewrite (load_data_ledger _ _ Hl3). now repeat split.
Qed.

(** X19. An entry typed at the menu: after choice 1 or 2, an amount
    [float] accepts, a category and a note, the ledger on a writable
    device has one more record at its end, of type [income] or
    [expense], with the amount as a float, the category and the note
    stripped of the white space around them, the day the clock shows as
    date and the next reading of the clock as creation stamp; the
    session goes on with the lines that follow. *)
Theorem menu_stores_entry (c amt cat note kind : string) (rest : list string)
    (x : float) (d : gmap string value) (rows : list value) (w : world) :
  (strip c = "1" ∧ kind = "income") ∨ (strip c = "2" ∧ kind = "expense") →
  float_of_str (strip amt) = Some x →
  ledger_on_disk w d →
  d !! "transactions" = Some (VList rows) →
  disk w = Writable →
  ∃ w',
    interactive_menu (c :: amt :: cat :: note :: rest) w = interactive_menu rest w' ∧
    data_json w' =
      Some (Text (VDict (<["transactions" :=
        VList (rows ++
          [txn_record (VStr kind) x (VStr (strip cat)) (VStr (strip note))
             (VStr (date_isoformat (on (clock w (ticks w)))))
             (datetime_isoformat (clock w (S (ticks w))))])]> d))) ∧
    disk w' = Writable ∧ clock w' = clock w ∧ ticks w' = S (S (ticks w)).
Proof.
  intros Hc Hx Hl Hrows Hdisk.
  set (w0 := with_lines menu_lines w).
  assert (Hl0 : ledger_on_disk w0 d) by (destruct Hl as [[Hf ->] | Hf]; [left | right]; auto).
  destruct Hc as [[Hc ->] | [Hc ->]].
  - destruct (menu_add_stores "income" "Jumlah (contoh 150000): "
                "Jumlah tidak valid. Gunakan angka, mis. 150000 atau 150000.50"
                "Pemasukan tersimpan." amt cat note rest x d rows w0 Hx Hl0 Hrows Hdisk)
      as (w' & Hrun & Hfile).
    exists w'. split; [| exact Hfile].
    apply (interactive_menu_next _ _ _ _ tt). now rewrite menu_turn_line, Hc.
  - destruct (menu_add_stores "expense" "Jumlah (contoh 50000): "
                "Jumlah tidak valid. Gunakan angka, mis. 50000 atau 50000.00"
                "Pengeluaran tersimpan." amt cat note rest x d rows w0 Hx Hl0 Hrows Hdisk)
      as (w' & Hrun & Hfile).
    exists w'. split; [| exact Hfile].
    apply (interactive_menu_next _ _ _ _ tt). now rewrite menu_turn_line, Hc.
Qed.

(** X20. A refused amount: after choice 1 or 2, an amount [float] does
    not accept is answered by the line [Jumlah tidak valid ...]; the
    category and the note are not asked for, nothing is stored, the
    clock is not read, and the session goes on with the line after the
    amount. *)
Theorem menu_refuses_amount (c amt : string) (rest : list string) (w : world) :
  strip c = "1" ∨ strip c = "2" →
  float_of_str (strip amt) = None →
  ∃ w' ask invalid,
    interactive_menu (c :: amt :: rest) w = interactive_menu rest w' ∧
    same_store w w' ∧
    stdout w' = stdout w ++ menu_lines ++ [ask; invalid] ∧
    String.prefix "Jumlah tidak valid." invalid = true.
Proof.
  intros Hc Hx.
  assert (Hfloat : py_float (VStr (strip amt)) = Raise ValueError) by (simpl; now rewrite Hx).
  destruct Hc as [Hc | Hc].
  - eexists _, "Jumlah (contoh 150000): ",
      "Jumlah tidak valid. Gunakan angka, mis. 150000 atau 150000.50".
    split; [| split; [| split]].
    + apply (interactive_menu_next _ _ _ _ tt). rewrite menu_turn_line, Hc.
      change (menu_choice "1") with
        (menu_add "income" "Jumlah (contoh 150000): "
           "Jumlah tidak valid. Gunakan angka, mis. 150000 atau 150000.50"
           "Pemasukan tersimpan.").
      unfold menu_add, session_bind, input. rewrite Hfloat. reflexivity.
    + now repeat split.
    + cbn [stdout with_line with_lines menu_lines fold_left].
      repeat rewrite <- app_assoc. reflexivity.
    + reflexivity.
  - eexists _, "Jumlah (contoh 50000): ",
      "Jumlah tidak valid. Gunakan angka, mis. 50000 atau 50000.00".
    split; [| split; [| split]].
    + apply (interactive_menu_next _ _ _ _ tt). rewrite menu_turn_line, Hc.
      change (menu_choice "2") with
        (menu_add "expense" "Jumlah (contoh 50000): "
           "Jumlah tidak valid. Gunakan angka, mis. 50000 atau 50000.00"
           "Pengeluaran tersimpan.").
      unfold menu_add, session_bind, input. rewrite Hfloat. reflexivity.
    + now repeat split.
    + cbn [stdout with_line with_lines menu_lines fold_left].
      repeat rewrite <- app_assoc. reflexivity.
    + reflexivity.
Qed.

(** X21. A document without the list: when [data.json] holds an
    object with no ["transactions"], choice 4 takes the list for empty
    and answers [Tidak ada transaksi.], while choice 3 on the same file
    ends the session with [KeyError]; the file is left as it is. *)
Theorem menu_on_keyless_document (look sum : string) (rest : list string)
    (d : gmap string value) (w : world) :
  data_json w = Some (Text (VDict d)) →
  d !! "transactions" = None →
  strip look = "4" →
  strip sum = "3" →
  ∃ w',
    interactive_menu (look :: sum :: rest) w = Some (Escaped KeyError, rest, w') ∧
    stdout w' = stdout w ++ menu_lines ++ ["Tidak ada transaksi."] ++ menu_lines ∧
    data_json w' = data_json w.
Proof.
  intros Hf Hnone Hlook Hsum.
  set (w1 := with_line "Tidak ada transaksi." (with_lines menu_lines w)).
  set (w2 := with_tick (with_lines menu_lines w1)).
  exists w2. split; [| split].
  - rewrite (interactive_menu_next _ (sum :: rest) _ w1 tt).
    + apply interactive_menu_last. rewrite menu_turn_line, Hsum.
      change (menu_choice "3") with
        (let+ today := run today in run (print_summary (year today) (month today))).
      unfold session_bind. unfold run at 1, today.
      apply run_raise. unfold print_summary, summarize_month, get_month_transactions.
      unfold bind at 1. unfold bind at 1. unfold bind at 1.
      rewrite (load_data_text _ (VDict d)) by exact Hf.
      cbn [getitem]. rewrite Hnone. reflexivity.
    + rewrite menu_turn_line, Hlook.
      change (menu_choice "4") with
        (let+ data := run load_data in
         let+ txs := run (lift (dict_get_or data "transactions" (VList []))) in
         run (list_transactions txs)).
      unfold session_bind.
      rewrite (run_ok _ _ _ _ _ (load_data_text (with_lines menu_lines w) (VDict d) Hf)).
      unfold run at 1, lift. cbn [dict_get_or]. rewrite Hnone. reflexivity.
  - unfold w2, w1. cbn [stdout with_tick with_line with_lines menu_lines fold_left].
    repeat rewrite <- app_assoc. reflexivity.
  - reflexivity.
Qed.

End Menu.

Lemma menu_reads_keep_file_witness :
  ∃ e rest w',
    @interactive_menu digits_parser plain_formatter
      ["3"; " 4 "; "5"; "tidak"; "9"; "0"] (one_record Writable) = Some (e, rest, w') ∧
    data_json w' = data_json (one_record Writable) ∧
    disk w' = disk (one_record Writable).
Proof.
  apply (@menu_reads_keep_file digits_parser plain_formatter
           ["3"; " 4 "; "5"; "tidak"; "9"; "0"] (one_record Writable)).
  repeat constructor; vm_compute; discriminate.
Defined.

Lemma menu_never_crashes_witness :
  ∃ e rest w',
    @interactive_menu digits_parser plain_formatter
      ["1"; "150000"; "Gaji"; ""; "3"; "4"; "5"; "ya"; "0"] fresh = Some (e, rest, w') ∧
    (e = Returned ∨ e = EOFError) ∧ sound_store w'.
Proof.
  apply (@menu_never_crashes digits_parser plain_formatter
           ["1"; "150000"; "Gaji"; ""; "3"; "4"; "5"; "ya"; "0"] fresh).
  split; [reflexivity |]. exists empty_ledger, []. repeat split. constructor.
Defined.

Lemma menu_stores_entry_witness :
  ∃ w',
    @interactive_menu digits_parser plain_formatter
      [" 1"; "150000 "; " Gaji "; ""; "0"] fresh =
    @interactive_menu digits_parser plain_formatter ["0"] w' ∧
    data_json w' =
      Some (Text (VDict (<["transactions" :=
        VList ([] ++
          [txn_record (VStr "income") (SF2Prim (binary_normalize prec emax 150000 0 false))
             (VStr (strip " Gaji ")) (VStr (strip ""))
             (VStr (date_isoformat (on (clock fresh (ticks fresh)))))
             (datetime_isoformat (clock fresh (S (ticks fresh))))])]> empty_ledger))) ∧
    disk w' = Writable ∧ clock w' = clock fresh ∧ ticks w' = S (S (ticks fresh)).
Proof.
  apply (@menu_stores_entry digits_parser plain_formatter " 1" "150000 " " Gaji " ""
           "income" ["0"] (SF2Prim (binary_normalize prec emax 150000 0 false))
           empty_ledger [] fresh).
  - left. split; reflexivity.
  - reflexivity.
  - left. split; reflexivity.
  - reflexivity.
  - reflexivity.
Defined.

Lemma menu_refuses_amount_witness :
  ∃ w' ask invalid,
    @interactive_menu digits_parser plain_formatter ["2"; "lima ribu"; "0"] fresh =
    @interactive_menu digits_parser plain_formatter ["0"] w' ∧
    same_store fresh w' ∧
    stdout w' = stdout fresh ++ menu_lines ++ [ask; invalid] ∧
    String.prefix "Jumlah tidak valid." invalid = true.
Proof.
  apply (@menu_refuses_amount digits_parser plain_formatter "2" "lima ribu" ["0"] fresh).
  - right. reflexivity.
  - reflexivity.
Defined.

Lemma menu_on_keyless_document_witness :
  ∃ w',
    @interactive_menu digits_parser plain_formatter ["4"; "3"]
      (holding (VDict {[ "owner" := VStr "Vira" ]})) = Some (Escaped KeyError, [], w') ∧
    stdout w' =
      stdout (holding (VDict {[ "owner" := VStr "Vira" ]})) ++
      menu_lines ++ ["Tidak ada transaksi."] ++ menu_lines ∧
    data_json w' = data_json (holding (VDict {[ "owner" := VStr "Vira" ]})).
Proof.
  apply (@menu_on_keyless_document digits_parser plain_formatter "4" "3" []
           {[ "owner" := VStr "Vira" ]} (holding (VDict {[ "owner" := VStr "Vira" ]}))).
  - reflexivity.
  - reflexivity.
  - reflexivity.
  - reflexivity.
Defined.

(** * The demo on a ledger in use *)

Section DemoInUse.
Context `{FloatParser} `{Formatter}.

(** X22. The demo writes into the ledger in use: whatever rows and
    other keys [data.json] holds, [demo_run] on a writable device leaves
    them in place and appends its three sample records after them; the
    file stays so whether the report that follows is printed or raises
    on one of the older rows. *)
Theorem demo_run_appends (w : world) (d : gmap string value) (rows : list value) :
  ledger_on_disk w d →
  d !! "transactions" = Some (VList rows) →
  disk w = Writable →
  let this_day := on (clock w (ticks w)) in
  ∃ r new w',
    demo_run w = (r, w') ∧
    data_json w' = Some (Text (VDict (<["transactions" := VList (rows ++ new)]> d))) ∧
    Forall2 stored (demo_entries (year this_day) (month this_day)) new.
Proof.
  intros Hl Hrows Hdisk this_day.
  set (y := year this_day). set (m := month this_day).
  set (wa := with_tick w).
  assert (Hla : ledger_on_disk wa d) by (destruct Hl as [[Hf ->] | Hf]; [left | right]; auto).
  pose proof (add_transaction_stores wa d rows (VStr "income") (VInt 5000000)
                5000000 (VStr "Gaji") (VStr "Gaji bulan ini") (demo_date y m "01")) as H1.
  set (r1 := txn_record _ _ _ _ _ _) in H1. set (d1 := <[_ := _]> _) in H1.
  set (w1 := with_file _ _) in H1.
  specialize (H1 Hla Hrows Hdisk ltac:(discriminate) eq_refl).
  pose proof (add_transaction_stores w1 d1 (rows ++ [r1]) (VStr "expense") (VInt 1500000)
                1500000 (VStr "Sewa") (VStr "Sewa rumah") (demo_date y m "02")) as H2.
  set (r2 := txn_record _ _ _ _ _ _) in H2. set (d2 := <[_ := _]> _) in H2.
  set (w2 := with_file _ _) in H2.
  specialize (H2 (or_intror eq_refl) (lookup_insert_eq _ _ _) Hdisk
                ltac:(discriminate) eq_refl).
  pose proof (add_transaction_stores w2 d2 ((rows ++ [r1]) ++ [r2]) (VStr "expense")
                (VInt 300000) 300000 (VStr "Makan") (VStr "Makan dan belanja")
                (demo_date y m "05")) as H3.
  set (r3 := txn_record _ _ _ _ _ _) in H3. set (d3 := <[_ := _]> _) in H3.
  set (w3 := with_file _ _) in H3.
  specialize (H3 (or_intror eq_refl) (lookup_insert_eq _ _ _) Hdisk
                ltac:(discriminate) eq_refl).
  set (w4 := with_line "Menjalankan demo: menambahkan 3 transaksi contoh." w3).
  destruct (print_summary y m w4) as [r w5] eqn:Hprint.
  destruct (keeps_file_print_summary y m w4) as [Hfile _]. rewrite Hprint in Hfile.
  exists r, [r1; r2; r3], w5. split; [| split].
  - unfold demo_run, bind at 1, today at 1. fold this_day wa y m.
    rewrite (bind_ok _ _ _ _ _ H1), (bind_ok _ _ _ _ _ H2), (bind_ok _ _ _ _ _ H3).
    unfold bind at 1, print at 1. fold w4. exact Hprint.
  - simpl in Hfile. rewrite Hfile. unfold d3, d2, d1.
    rewrite !insert_insert_eq, <- !app_assoc. reflexivity.
  - repeat constructor; apply txn_record_stored.
Qed.

End DemoInUse.

Lemma demo_run_appends_witness :
  ∃ r new w',
    @demo_run digits_parser plain_formatter (one_record Writable) = (r, w') ∧
    data_json w' =
      Some (Text (VDict (<["transactions" := VList ([salary] ++ new)]>
                           {[ "transactions" := VList [salary] ]}))) ∧
    Forall2 stored (demo_entries 2024 3) new.
Proof.
  apply (@demo_run_appends digits_parser plain_formatter (one_record Writable)
           {[ "transactions" := VList [salary] ]} [salary]).
  - now right.
  - reflexivity.
  - reflexivity.
Defined.
